(* Verification of quant_based_fundamental_analysis.py: the valuation and
   scoring engine of the FundamentalAnalyzer class (ratios, Piotroski
   F-Score, historical growth, CAPM and the simplified DCF).

   Modelling conventions.
   - A statement cell is a float64 after pd.to_numeric(errors='coerce'):
     a finite number (Q, exact arithmetic, no rounding), NaN, or an
     infinity (flt).  Zeros are unsigned: a "-0" cell (-0.0) is not told
     apart from 0.0; every zero the code computes itself (x - x, 0.0 ** k)
     is +0.0.
   - Series.get on a statement row returns the cell, or None when the
     column is absent: pyval.
   - Cells are numpy scalars, and so is every value computed from one; each
     division of the analysed code has such an operand.  Division therefore
     follows numpy's IEEE 754 semantics: x / 0 is +inf or -inf, 0 / 0 and
     anything involving NaN are NaN, with a RuntimeWarning and no exception.
     Only a None operand raises (TypeError).
   - Every method body runs inside `try ... except Exception`; exceptions
     are the constructors of exn and the body is a state-and-error
     computation over the ratios dictionary, so that writes made before an
     exception persist, as they do on self.ratios.
   - The overview's fields are Python strings of code points below 256
     (ascii, read as Latin-1); float() and int() on them follow CPython
     3.11: surrounding whitespace, underscores between digits, exponents,
     inf/infinity/nan, and int()'s limit of 4300 digits. *)

From Stdlib Require Import QArith Qabs Qpower ZArith List Bool Lia Ascii String.
From Stdlib Require Import Reals Lqa.
From Stdlib Require Lra.
From stdpp Require Import base strings pretty.
Import ListNotations.

Open Scope string_scope.

(* ------------------------------------------------------------------ *)
(** * Python values *)

(** A float64 value: a finite value, NaN, or an infinity. *)
Inductive flt : Type :=
| Fin (q : Q)
| NaN
| PInf
| NInf.

(** The result of `row.get(col)`: None, or a numeric cell. *)
Inductive pyval : Type :=
| PNone
| PNum (x : flt).

(** The exceptions the analysed code can raise and swallow. *)
Inductive exn : Type :=
| TypeError
| ValueError
| IndexError.

Inductive res (A : Type) : Type :=
| Ok (a : A)
| Err (e : exn).
Arguments Ok {A} a.
Arguments Err {A} e.

Definition res_bind {A B} (m : res A) (k : A -> res B) : res B :=
  match m with Ok a => k a | Err e => Err e end.

Notation "'let!' x ':=' m 'in' k" := (res_bind m (fun x => k))
  (at level 200, x name, m at level 100, k at level 200).

Definition num (q : Q) : pyval := PNum (Fin q).

Definition Qltb (x y : Q) : bool := negb (Qle_bool y x).

(** IEEE 754 float64 arithmetic on flt. *)
Definition flt_neg (a : flt) : flt :=
  match a with
  | Fin x => Fin (- x)
  | NaN => NaN
  | PInf => NInf
  | NInf => PInf
  end.

Definition flt_add (a b : flt) : flt :=
  match a, b with
  | Fin x, Fin y => Fin (x + y)
  | NaN, _ | _, NaN => NaN
  | PInf, NInf | NInf, PInf => NaN
  | PInf, _ | _, PInf => PInf
  | _, _ => NInf
  end.

Definition flt_sub (a b : flt) : flt :=
  match a, b with
  | Fin x, Fin y => Fin (x - y)
  | _, _ => flt_add a (flt_neg b)
  end.

(** `x * inf` for a finite x: NaN when x is zero, else the signed infinity. *)
Definition flt_scale_inf (x : Q) (i : flt) : flt :=
  if Qeq_bool x 0 then NaN else if Qltb x 0 then flt_neg i else i.

Definition flt_mul (a b : flt) : flt :=
  match a, b with
  | Fin x, Fin y => Fin (x * y)
  | NaN, _ | _, NaN => NaN
  | Fin x, i | i, Fin x => flt_scale_inf x i
  | PInf, PInf | NInf, NInf => PInf
  | _, _ => NInf
  end.

(** numpy's true division: a zero denominator gives a signed infinity, or
    NaN for 0 / 0, and raises nothing. *)
Definition flt_div (a b : flt) : flt :=
  match a, b with
  | Fin x, Fin y =>
      if Qeq_bool y 0 then
        (if Qeq_bool x 0 then NaN else if Qltb x 0 then NInf else PInf)
      else Fin (x / y)
  | NaN, _ | _, NaN => NaN
  | Fin _, _ => Fin 0
  | i, Fin y => if Qltb y 0 then flt_neg i else i
  | _, _ => NaN
  end.

Definition flt_abs (a : flt) : flt :=
  match a with
  | Fin x => Fin (Qabs x)
  | NaN => NaN
  | _ => PInf
  end.

(** Binary arithmetic: None operands raise TypeError; on numbers it is the
    float64 operation. *)
Definition py_arith (op : flt -> flt -> flt) (a b : pyval) : res pyval :=
  match a, b with
  | PNone, _ | _, PNone => Err TypeError
  | PNum x, PNum y => Ok (PNum (op x y))
  end.

Definition py_add := py_arith flt_add.
Definition py_sub := py_arith flt_sub.
Definition py_mul := py_arith flt_mul.

(** True division `a / b` with a numpy operand. *)
Definition py_div := py_arith flt_div.

(** Position of a non-NaN value with respect to the finite ones. *)
Definition inf_rank (x : flt) : Z :=
  match x with NInf => -1 | PInf => 1 | _ => 0 end%Z.

(** Ordered comparisons: None raises TypeError, NaN compares false, and
    -inf < every finite value < +inf. *)
Definition py_cmp (c : Q -> Q -> bool) (cr : Z -> Z -> bool) (a b : pyval) : res bool :=
  match a, b with
  | PNone, _ | _, PNone => Err TypeError
  | PNum (Fin x), PNum (Fin y) => Ok (c x y)
  | PNum NaN, _ | _, PNum NaN => Ok false
  | PNum x, PNum y => Ok (cr (inf_rank x) (inf_rank y))
  end.

Definition py_gt := py_cmp (fun x y => Qltb y x) Z.gtb.
Definition py_lt := py_cmp Qltb Z.ltb.
Definition py_le := py_cmp Qle_bool Z.leb.

(** Python truthiness: None and 0 are falsy, NaN and the infinities are
    truthy. *)
Definition truthy (a : pyval) : bool :=
  match a with
  | PNone => false
  | PNum (Fin q) => negb (Qeq_bool q 0)
  | PNum _ => true
  end.

Definition py_abs (a : pyval) : res pyval :=
  match a with
  | PNone => Err TypeError
  | PNum x => Ok (PNum (flt_abs x))
  end.

(** `int(b)` for a comparison result added to the score. *)
Definition b2z (b : bool) : Z := if b then 1%Z else 0%Z.

(* ------------------------------------------------------------------ *)
(** * Statement tables *)

(** A row of a statement DataFrame: its numeric columns. *)
Definition row := list (string * flt).

(** A DataFrame sorted oldest to newest. *)
Definition table := list row.

Fixpoint assoc {A} (k : string) (l : list (string * A)) : option A :=
  match l with
  | [] => None
  | (k', v) :: l' => if String.eqb k k' then Some v else assoc k l'
  end.

(** `row.get(col)` *)
Definition row_get (r : row) (k : string) : pyval :=
  match assoc k r with Some x => PNum x | None => PNone end.

(** `row.get(col, default)` *)
Definition row_get_d (r : row) (k : string) (d : pyval) : pyval :=
  match assoc k r with Some x => PNum x | None => d end.

(** `df.iloc[k]` with Python's negative indices. *)
Definition iloc {A} (l : list A) (k : Z) : res A :=
  let i := if (k <? 0)%Z then (Z.of_nat (length l) + k)%Z else k in
  if (i <? 0)%Z then Err IndexError
  else match nth_error l (Z.to_nat i) with
       | Some a => Ok a
       | None => Err IndexError
       end.

(* ------------------------------------------------------------------ *)
(** * Parsing the overview strings: float() and int() *)

Definition digit_val (c : ascii) : option Z :=
  let n := nat_of_ascii c in
  if (48 <=? n)%nat && (n <=? 57)%nat then Some (Z.of_nat (n - 48)) else None.

Definition is_digit (c : ascii) : bool :=
  match digit_val c with Some _ => true | None => false end.

(** The whitespace str.strip() removes, among the code points below 256:
    \t \n \v \f \r, the space, U+0085 and U+00A0. *)
Definition py_space (c : ascii) : bool :=
  let n := nat_of_ascii c in
  ((9 <=? n) && (n <=? 13))%nat || (n =? 32)%nat || (n =? 133)%nat || (n =? 160)%nat.

Fixpoint drop_spaces (l : list ascii) : list ascii :=
  match l with
  | c :: l' => if py_space c then drop_spaces l' else l
  | [] => []
  end.

Definition strip (l : list ascii) : list ascii := rev (drop_spaces (rev (drop_spaces l))).

(** PEP 515: every underscore sits between two digits. *)
Fixpoint underscores_ok (prev_digit : bool) (l : list ascii) : bool :=
  match l with
  | [] => true
  | c :: l' =>
      if Ascii.eqb c "_" then
        prev_digit && match l' with d :: _ => is_digit d | [] => false end
        && underscores_ok false l'
      else underscores_ok (is_digit c) l'
  end.

Definition drop_underscores (l : list ascii) : list ascii :=
  filter (fun c => negb (Ascii.eqb c "_")) l.

Fixpoint take_digits (l : list ascii) : list Z * list ascii :=
  match l with
  | c :: l' =>
      match digit_val c with
      | Some d => let (ds, r) := take_digits l' in (d :: ds, r)
      | None => ([], l)
      end
  | [] => ([], [])
  end.

Definition digits_value (ds : list Z) : Z :=
  fold_left (fun acc d => 10 * acc + d)%Z ds 0%Z.

(** An optional leading sign: (negative?, rest). *)
Definition take_sign (l : list ascii) : bool * list ascii :=
  match l with
  | c :: r =>
      if Ascii.eqb c "-" then (true, r)
      else if Ascii.eqb c "+" then (false, r)
      else (false, l)
  | [] => (false, l)
  end.

(** `digits ["." [digits]] | "." digits`, then optionally `e`/`E`, a sign
    and digits: the exact value of the literal, or None. *)
Definition parse_decimal (l : list ascii) : option Q :=
  let (ip, r) := take_digits l in
  let (fp, r) := match r with
                 | c :: r' => if Ascii.eqb c "." then take_digits r' else ([], r)
                 | [] => ([], r)
                 end in
  match (ip ++ fp)%list with
  | [] => None
  | ds =>
      let m := Qmake (digits_value ds) (Z.to_pos (10 ^ Z.of_nat (length fp))) in
      match r with
      | [] => Some m
      | e :: r' =>
          if Ascii.eqb e "e" || Ascii.eqb e "E" then
            let (eneg, r'') := take_sign r' in
            match take_digits r'' with
            | ((_ :: _) as es, []) =>
                let k := digits_value es in
                Some (m * Qpower 10 (if eneg then - k else k)%Z)%Q
            | _ => None
            end
          else None
      end
  end.

Definition lower (c : ascii) : ascii :=
  let n := nat_of_ascii c in
  if (65 <=? n)%nat && (n <=? 90)%nat then ascii_of_nat (n + 32) else c.

(** `inf`, `infinity` and `nan`, in any case. *)
Definition parse_special (l : list ascii) : option flt :=
  let w := string_of_list_ascii (map lower l) in
  if String.eqb w "inf" || String.eqb w "infinity" then Some PInf
  else if String.eqb w "nan" then Some NaN
  else None.

(** Rounding a literal to float64 at the ends of the range: from
    2^1024 - 2^970 (the largest double plus half an ulp) on it is an
    infinity, up to 2^-1075 (half the smallest subnormal) it is 0; in
    between the exact value stands for the double. *)
Definition FLOAT_OVERFLOW : Q := inject_Z (2 ^ 1024 - 2 ^ 970).
Definition FLOAT_UNDERFLOW : Q := Qmake 1 (2 ^ 1075).

Definition round_literal (q : Q) : flt :=
  if Qle_bool FLOAT_OVERFLOW (Qabs q) then (if Qltb q 0 then NInf else PInf)
  else if Qle_bool (Qabs q) FLOAT_UNDERFLOW then Fin 0
  else Fin q.

(** `float(s)` on a str: surrounding whitespace is skipped, underscores
    between digits are dropped, then an optional sign and either
    inf/infinity/nan or a decimal literal.  Anything else ("N/A", "None",
    "-", "") raises ValueError. *)
Definition py_float (s : string) : res flt :=
  let l := strip (list_ascii_of_string s) in
  if underscores_ok false l then
    let (neg, body) := take_sign (drop_underscores l) in
    let v := match parse_special body with
             | Some x => Some x
             | None => option_map round_literal (parse_decimal body)
             end in
    match v with
    | Some x => Ok (if neg then flt_neg x else x)
    | None => Err ValueError
    end
  else Err ValueError.

(** CPython's limit on the digits of a decimal int() (3.11 and later). *)
Definition INT_MAX_STR_DIGITS : nat := 4300.

(** `int(s)` on a str: surrounding whitespace, an optional sign, then
    digits with single underscores between them; anything else raises
    ValueError, as does a literal of more than 4300 digits. *)
Definition py_int (s : string) : res Z :=
  let l := strip (list_ascii_of_string s) in
  let (neg, body) := take_sign l in
  match take_digits (drop_underscores body) with
  | ((_ :: _) as ds, []) =>
      if underscores_ok false body && (length ds <=? INT_MAX_STR_DIGITS)%nat
      then Ok (if neg then - digits_value ds else digits_value ds)%Z
      else Err ValueError
  | _ => Err ValueError
  end.

(* ------------------------------------------------------------------ *)
(** * The analyzer state *)

(** A value stored in self.ratios: a float, an int (the F-Score) or None
    (a CAGR that could not be computed). *)
Inductive rval : Type :=
| RFloat (x : flt)
| RInt (z : Z)
| RNone.

Definition of_pyval (v : pyval) : rval :=
  match v with PNone => RNone | PNum x => RFloat x end.

(** self.ratios, an insertion-ordered dict. *)
Definition dict := list (string * rval).

(** `d[k] = v`: replaces the value in place, or appends a new key. *)
Fixpoint dict_set (d : dict) (k : string) (v : rval) : dict :=
  match d with
  | [] => [(k, v)]
  | (k', v') :: d' =>
      if String.eqb k k' then (k', v) :: d' else (k', v') :: dict_set d' k v
  end.

(** `d.get(k)` *)
Definition dict_get (d : dict) (k : string) : option rval := assoc k d.

(** The overview JSON object: string fields. *)
Definition overview := list (string * string).

(** `overview.get(k)` *)
Definition ov_get (ov : overview) (k : string) : option string := assoc k ov.

(** `overview.get(k, default)` *)
Definition ov_get_d (ov : overview) (k d : string) : string :=
  match assoc k ov with Some s => s | None => d end.

Record analyzer : Type := mk_analyzer {
  ticker : string;
  overview_of : option overview;
  income_statement : option table;
  balance_sheet : option table;
  cash_flow : option table;
  ratios : dict
}.

(** `FundamentalAnalyzer(ticker)` followed by fetch_all_data: the fetched
    data is an input of the model. *)
Definition init_analyzer (t : string) (ov : option overview)
  (inc bs cf : option table) : analyzer :=
  mk_analyzer t ov inc bs cf [].

Definition with_ratios (st : analyzer) (d : dict) : analyzer :=
  mk_analyzer (ticker st) (overview_of st) (income_statement st)
    (balance_sheet st) (cash_flow st) d.

(** State and exceptions over self.ratios: the body of a `try` block. *)
Definition SE (A : Type) : Type := dict -> dict * res A.

Definition se_ret {A} (a : A) : SE A := fun d => (d, Ok a).
Definition se_lift {A} (m : res A) : SE A := fun d => (d, m).
Definition se_bind {A B} (m : SE A) (k : A -> SE B) : SE B :=
  fun d => let (d', r) := m d in
           match r with Ok a => k a d' | Err e => (d', Err e) end.
Definition se_set (k : string) (v : rval) : SE unit :=
  fun d => (dict_set d k v, Ok tt).

Notation "'slet' x ':=' m 'in' k" := (se_bind m (fun x => k))
  (at level 200, x name, m at level 100, k at level 200).

(** `try: body except Exception: print(...)`: writes made before the
    exception stay in self.ratios. *)
Definition run_try {A} (st : analyzer) (body : SE A) : analyzer * res A :=
  let (d, r) := body (ratios st) in (with_ratios st d, r).

(* ------------------------------------------------------------------ *)
(** * RatioEngine: FundamentalAnalyzer.calculate_ratios *)

Definition calculate_ratios_body (ov : overview) (inc bs : table) : SE unit :=
  (* Valuation ratios, from the overview *)
  slet pe := se_lift (py_float (ov_get_d ov "PERatio" "N/A")) in
  slet _u := se_set "P/E_Ratio" (RFloat pe) in
  slet pb := se_lift (py_float (ov_get_d ov "PriceToBookRatio" "N/A")) in
  slet _u := se_set "P/B_Ratio" (RFloat pb) in
  slet ps := se_lift (py_float (ov_get_d ov "PriceToSalesRatioTTM" "N/A")) in
  slet _u := se_set "P/S_Ratio" (RFloat ps) in
  slet dy := se_lift (py_float (ov_get_d ov "DividendYield" "N/A")) in
  slet _u := se_set "Dividend_Yield" (RFloat dy) in
  (* Profitability ratios, from the latest annual report *)
  slet latest_income := se_lift (iloc inc (-1)) in
  slet latest_balance := se_lift (iloc bs (-1)) in
  let net_income := row_get latest_income "netIncome" in
  let total_revenue := row_get latest_income "totalRevenue" in
  let total_shareholder_equity :=
    row_get latest_balance "totalShareholderEquity" in
  slet _u := (if truthy net_income && truthy total_revenue
              then slet v := se_lift (py_div net_income total_revenue) in
                   se_set "Net_Profit_Margin" (of_pyval v)
              else se_ret tt) in
  slet _u := (if truthy net_income && truthy total_shareholder_equity
              then slet v := se_lift (py_div net_income total_shareholder_equity) in
                   se_set "Return_on_Equity (ROE)" (of_pyval v)
              else se_ret tt) in
  (* Solvency ratios *)
  slet total_debt := se_lift (py_add (row_get_d latest_balance "longTermDebt" (num 0))
                                     (row_get_d latest_balance "shortTermDebt" (num 0))) in
  if truthy total_debt && truthy total_shareholder_equity
  then slet v := se_lift (py_div total_debt total_shareholder_equity) in
       se_set "Debt_to_Equity" (of_pyval v)
  else se_ret tt.

Definition calculate_ratios (st : analyzer) : analyzer :=
  match overview_of st, income_statement st, balance_sheet st with
  | Some ov, Some inc, Some bs => fst (run_try st (calculate_ratios_body ov inc bs))
  | _, _, _ => st
  end.

Definition ov_sample : overview :=
  [("PERatio", "28.5"); ("PriceToBookRatio", "40.1");
   ("PriceToSalesRatioTTM", "7.2"); ("DividendYield", "0.0044");
   ("SharesOutstanding", "1000"); ("Beta", "1.2")].

Definition inc_row (rev ni : flt) : row :=
  [("totalRevenue", rev); ("netIncome", ni)].

Definition bs_row1 : row :=
  [("totalShareholderEquity", Fin 50); ("longTermDebt", Fin 20);
   ("shortTermDebt", Fin 5)].

Example ratios_ex1 :
  ratios (calculate_ratios
            (init_analyzer "T" (Some ov_sample)
               (Some [inc_row (Fin 100) (Fin 10)]) (Some [bs_row1]) None))
  = [("P/E_Ratio", RFloat (Fin (Qmake 285 10)));
     ("P/B_Ratio", RFloat (Fin (Qmake 401 10)));
     ("P/S_Ratio", RFloat (Fin (Qmake 72 10)));
     ("Dividend_Yield", RFloat (Fin (Qmake 44 10000)));
     ("Net_Profit_Margin", RFloat (Fin (10 / 100)));
     ("Return_on_Equity (ROE)", RFloat (Fin (10 / 50)));
     ("Debt_to_Equity", RFloat (Fin ((20 + 5) / 50)))].
Proof. reflexivity. Qed.

(* ------------------------------------------------------------------ *)
(** * FScoreEngine: FundamentalAnalyzer.calculate_piotroski_f_score *)

Definition zero : pyval := num 0.

(** 1. Positive net income: `if net_income_T and net_income_T > 0`. *)
Definition test1 (inc_T : row) : res Z :=
  let ni := row_get inc_T "netIncome" in
  if truthy ni then let! c := py_gt ni zero in Ok (b2z c) else Ok 0%Z.

(** 2. Positive operating cash flow. *)
Definition test2 (cf_T : row) : res Z :=
  let ocf := row_get cf_T "operatingCashflow" in
  if truthy ocf then let! c := py_gt ocf zero in Ok (b2z c) else Ok 0%Z.

(** `(bs_a.get('totalAssets') + bs_b.get('totalAssets')) / 2` *)
Definition avg_assets (bs_a bs_b : row) : res pyval :=
  let! s := py_add (row_get bs_a "totalAssets") (row_get bs_b "totalAssets") in
  py_div s (num 2).

(** 3. Higher return on assets, evaluated only if both averages are
    positive (`avg_assets_T > 0 and avg_assets_T_1 > 0`). *)
Definition test3 (inc_T inc_T_1 : row) (avg_T avg_T_1 : pyval) : res Z :=
  let! c1 := py_gt avg_T zero in
  if c1 then
    let! c2 := py_gt avg_T_1 zero in
    if c2 then
      let! roa_T := py_div (row_get inc_T "netIncome") avg_T in
      let! roa_T_1 := py_div (row_get inc_T_1 "netIncome") avg_T_1 in
      let! c := py_gt roa_T roa_T_1 in
      Ok (b2z c)
    else Ok 0%Z
  else Ok 0%Z.

(** 4. Cash flow above net income:
    `if op_cash_flow_T and net_income_T and op_cash_flow_T > net_income_T`. *)
Definition test4 (inc_T cf_T : row) : res Z :=
  let ni := row_get inc_T "netIncome" in
  let ocf := row_get cf_T "operatingCashflow" in
  if truthy ocf && truthy ni then let! c := py_gt ocf ni in Ok (b2z c)
  else Ok 0%Z.

(** 5. Lower long-term debt ratio. *)
Definition test5 (bs_T bs_T_1 : row) : res Z :=
  let! dr_T := py_div (row_get bs_T "longTermDebt") (row_get bs_T "totalAssets") in
  let! dr_T_1 := py_div (row_get bs_T_1 "longTermDebt") (row_get bs_T_1 "totalAssets") in
  let! c := py_lt dr_T dr_T_1 in
  Ok (b2z c).

(** 6. Higher current ratio. *)
Definition test6 (bs_T bs_T_1 : row) : res Z :=
  let! cr_T := py_div (row_get bs_T "totalCurrentAssets")
                      (row_get bs_T "totalCurrentLiabilities") in
  let! cr_T_1 := py_div (row_get bs_T_1 "totalCurrentAssets")
                        (row_get bs_T_1 "totalCurrentLiabilities") in
  let! c := py_gt cr_T cr_T_1 in
  Ok (b2z c).

(** 7. No new shares issued: `if shares_T <= shares_T_1`. *)
Definition test7 (bs_T bs_T_1 : row) : res Z :=
  let shares_T := row_get bs_T "commonStock" in
  let shares_T_1 := row_get bs_T_1 "commonStock" in
  let! c := py_le shares_T shares_T_1 in
  Ok (b2z c).

(** 8. Higher gross margin. *)
Definition test8 (inc_T inc_T_1 : row) : res Z :=
  let! m_T := py_div (row_get inc_T "grossProfit") (row_get inc_T "totalRevenue") in
  let! m_T_1 := py_div (row_get inc_T_1 "grossProfit") (row_get inc_T_1 "totalRevenue") in
  let! c := py_gt m_T m_T_1 in
  Ok (b2z c).

(** 9. Higher asset turnover. *)
Definition test9 (inc_T inc_T_1 : row) (avg_T avg_T_1 : pyval) : res Z :=
  let! t_T := py_div (row_get inc_T "totalRevenue") avg_T in
  let! t_T_1 := py_div (row_get inc_T_1 "totalRevenue") avg_T_1 in
  let! c := py_gt t_T t_T_1 in
  Ok (b2z c).

(** The body of the `try` block, in the order of the source. *)
Definition f_score_body (inc bs cf : table) : res Z :=
  let! inc_T := iloc inc (-1) in
  let! inc_T_1 := iloc inc (-2) in
  let! bs_T := iloc bs (-1) in
  let! bs_T_1 := iloc bs (-2) in
  let! bs_T_2 := iloc bs (-3) in
  let! cf_T := iloc cf (-1) in
  let! s1 := test1 inc_T in
  let! s2 := test2 cf_T in
  let! avg_T := avg_assets bs_T bs_T_1 in
  let! avg_T_1 := avg_assets bs_T_1 bs_T_2 in
  let! s3 := test3 inc_T inc_T_1 avg_T avg_T_1 in
  let! s4 := test4 inc_T cf_T in
  let! s5 := test5 bs_T bs_T_1 in
  let! s6 := test6 bs_T bs_T_1 in
  let! s7 := test7 bs_T bs_T_1 in
  let! s8 := test8 inc_T inc_T_1 in
  let! s9 := test9 inc_T inc_T_1 avg_T avg_T_1 in
  Ok (s1 + s2 + s3 + s4 + s5 + s6 + s7 + s8 + s9)%Z.

(** The guard on row counts. *)
Definition f_score_preconditions (inc bs cf : table) : bool :=
  (3 <=? length inc)%nat && (3 <=? length bs)%nat && (1 <=? length cf)%nat.

(** Returns the new state and the method's return value. *)
Definition calculate_piotroski_f_score (st : analyzer) : analyzer * option Z :=
  match income_statement st, balance_sheet st, cash_flow st with
  | Some inc, Some bs, Some cf =>
      if f_score_preconditions inc bs cf then
        match f_score_body inc bs cf with
        | Ok score =>
            (with_ratios st (dict_set (ratios st) "Piotroski_F_Score" (RInt score)),
             Some score)
        | Err _ => (st, None)
        end
      else (st, None)
  | _, _, _ => (st, None)
  end.

(** The end-to-end scenario of the spec. *)
Definition inc_full (rev ni gp : Q) : row :=
  [("totalRevenue", Fin rev); ("netIncome", Fin ni); ("grossProfit", Fin gp)].

Definition bs_full (ta ltd tca tcl cs : Q) : row :=
  [("totalAssets", Fin ta); ("longTermDebt", Fin ltd);
   ("totalCurrentAssets", Fin tca); ("totalCurrentLiabilities", Fin tcl);
   ("commonStock", Fin cs)].

Definition inc_scn : table :=
  [inc_full 100 10 40; inc_full 120 12 50; inc_full 144 (144 / 10) 62].
Definition bs_scn : table :=
  [bs_full 200 100 50 40 10; bs_full 220 100 60 40 10; bs_full 242 100 70 40 10].
Definition cf_scn : table :=
  [[("operatingCashflow", Fin 30)]].

Example f_score_scenario :
  snd (calculate_piotroski_f_score
         (init_analyzer "T" None (Some inc_scn) (Some bs_scn) (Some cf_scn)))
  = Some 9%Z.
Proof. reflexivity. Qed.

(* ------------------------------------------------------------------ *)
(** * GrowthEngine: _calculate_cagr and calculate_historical_growth *)

Section Growth.

(** `**` on a float64 base and a non-integer float exponent.  It is not
    computable in exact arithmetic; the growth engine is verified for every
    such operation, one that raises included. *)
Variable fpow : flt -> Q -> res flt.

(** `_calculate_cagr(start_value, end_value, periods)` *)
Definition calculate_cagr (start_value end_value : pyval) (periods : Z) : res rval :=
  match start_value, end_value with
  | PNone, _ | _, PNone => Ok RNone
  | _, _ =>
      let! le0 := py_le start_value zero in
      if le0 || (periods =? 0)%Z then Ok RNone
      else
        let! ratio := py_div end_value start_value in
        match ratio with
        | PNone => Err TypeError
        | PNum r =>
            let! p := fpow r (1 / inject_Z periods) in
            let! v := py_sub (PNum p) (num 1) in
            Ok (of_pyval v)
        end
  end.

Definition rev_key (w : Z) : string := "Revenue_CAGR_" +:+ pretty w +:+ "Y".
Definition ni_key (w : Z) : string := "Net_Income_CAGR_" +:+ pretty w +:+ "Y".

Definition calculate_historical_growth_body (inc : table) (actual_periods : Z) : SE unit :=
  slet start_report := se_lift (iloc inc (-1 - actual_periods)) in
  slet end_report := se_lift (iloc inc (-1)) in
  slet revenue_cagr := se_lift (calculate_cagr (row_get start_report "totalRevenue")
                                 (row_get end_report "totalRevenue") actual_periods) in
  slet _u := se_set (rev_key actual_periods) revenue_cagr in
  slet net_income_cagr := se_lift (calculate_cagr (row_get start_report "netIncome")
                                    (row_get end_report "netIncome") actual_periods) in
  se_set (ni_key actual_periods) net_income_cagr.

(** `actual_periods = min(years, len(self.income_statement) - 1)` *)
Definition effective_window (inc : table) (years : Z) : Z :=
  Z.min years (Z.of_nat (length inc) - 1).

Definition calculate_historical_growth (st : analyzer) (years : Z) : analyzer :=
  match income_statement st with
  | None => st
  | Some inc =>
      if (length inc <? 2)%nat then st
      else
        let actual_periods := effective_window inc years in
        if (actual_periods =? 0)%Z then st
        else fst (run_try st (calculate_historical_growth_body inc actual_periods))
  end.

End Growth.

(** `_calculate_cagr` over exact real arithmetic, for the round-trip
    property: `**` on a positive base is Rpower, `1 / periods` is the true
    division of Python 3. *)
Definition calculate_cagr_R (start_value end_value : option R) (periods : Z) : option R :=
  match start_value, end_value with
  | Some s, Some e =>
      if Rle_dec s 0 then None
      else if (periods =? 0)%Z then None
      else Some (Rpower (e / s) (1 / IZR periods) - 1)%R
  | _, _ => None
  end.


(* ------------------------------------------------------------------ *)
(** * CapmEngine: calculate_cost_of_equity_capm *)

Definition calculate_cost_of_equity_capm (st : analyzer) (risk_free_rate market_return : Q)
  : analyzer * option flt :=
  match overview_of st with
  | None => (st, None)
  | Some ov =>
      match ov_get ov "Beta" with
      | None => (st, None)
      | Some beta_str =>
          if String.eqb beta_str "N/A" then (st, None)
          else match py_float beta_str with
               | Err _ => (st, None)
               | Ok beta =>
                   let cost_of_equity :=
                     flt_add (Fin risk_free_rate)
                       (flt_mul beta (Fin (market_return - risk_free_rate))) in
                   (with_ratios st (dict_set (ratios st) "Cost_of_Equity (CAPM)"
                                      (RFloat cost_of_equity)),
                    Some cost_of_equity)
               end
      end
  end.

(* ------------------------------------------------------------------ *)
(** * DcfEngine: run_simple_dcf *)

Record dcf_result : Type := mk_dcf {
  implied_share_price : pyval;
  equity_value : pyval;
  enterprise_value : pyval
}.

Fixpoint map_res {A B} (f : A -> res B) (l : list A) : res (list B) :=
  match l with
  | [] => Ok []
  | a :: l' => let! b := f a in let! bs := map_res f l' in Ok (b :: bs)
  end.

(** `sum(values)`: starts from the int 0. *)
Definition py_sum (l : list pyval) : res pyval :=
  fold_left (fun acc v => let! a := acc in py_add a v) l (Ok (num 0)).

(** `[last_fcf * ((1 + growth_rate) ** i) for i in range(1, 6)]` *)
Definition project_fcf (last_fcf : pyval) (growth_rate : Q) : res (list pyval) :=
  map_res (fun i => py_mul last_fcf (num (Qpower (1 + growth_rate) i))) [1; 2; 3; 4; 5]%Z.

(** `[fcf / ((1 + wacc) ** (i + 1)) for i, fcf in enumerate(projected_fcf)]` *)
Fixpoint discount_from (i : Z) (wacc : Q) (l : list pyval) : res (list pyval) :=
  match l with
  | [] => Ok []
  | fcf :: l' =>
      let! d := py_div fcf (num (Qpower (1 + wacc) (i + 1))) in
      let! ds := discount_from (i + 1)%Z wacc l' in
      Ok (d :: ds)
  end.

(** The `try` block; `Ok None` is an early `return None`. *)
Definition run_simple_dcf_body (cf bs : table) (ov : overview) (growth_rate wacc terminal_growth : Q)
  : res (option dcf_result) :=
  let! latest_cf := iloc cf (-1) in
  let op_cash_flow := row_get latest_cf "operatingCashflow" in
  let cap_ex := row_get latest_cf "capitalExpenditures" in
  match op_cash_flow, cap_ex with
  | PNone, _ | _, PNone => Ok None
  | _, _ =>
      let! abs_cap_ex := py_abs cap_ex in
      let! last_fcf := py_sub op_cash_flow abs_cap_ex in
      let! projected_fcf := project_fcf last_fcf growth_rate in
      let! fcf_5 := iloc projected_fcf (-1) in
      let! tv_num := py_mul fcf_5 (num (1 + terminal_growth)) in
      let! terminal_value := py_div tv_num (num (wacc - terminal_growth)) in
      let! discounted_values := discount_from 0 wacc projected_fcf in
      let! d_terminal_value := py_div terminal_value (num (Qpower (1 + wacc) 5)) in
      let! sum_dv := py_sum discounted_values in
      let! ev := py_add sum_dv d_terminal_value in
      let! latest_balance := iloc bs (-1) in
      let! total_debt := py_add (row_get_d latest_balance "longTermDebt" zero)
                                (row_get_d latest_balance "shortTermDebt" zero) in
      let cash := row_get_d latest_balance "cashAndCashEquivalentsAtCarryingValue" zero in
      let! net_debt := py_sub total_debt cash in
      let! eq_value := py_sub ev net_debt in
      match ov_get ov "SharesOutstanding" with
      | None => Ok None
      | Some s =>
          let! n := py_int s in
          if (n =? 0)%Z then Ok None
          else
            let! price := py_div eq_value (num (inject_Z n)) in
            Ok (Some (mk_dcf price eq_value ev))
      end
  end.

Definition run_simple_dcf (st : analyzer) (growth_rate wacc terminal_growth : Q)
  : option dcf_result :=
  match cash_flow st, balance_sheet st, overview_of st with
  | Some cf, Some bs, Some ov =>
      match run_simple_dcf_body cf bs ov growth_rate wacc terminal_growth with
      | Ok r => r
      | Err _ => None
      end
  | _, _, _ => None
  end.

Example dcf_fcf1 :
  project_fcf (num 100) (5 / 100) =
  Ok (map (fun i => num (100 * Qpower (1 + 5 / 100) i)) [1; 2; 3; 4; 5]%Z).
Proof. reflexivity. Qed.

(* ------------------------------------------------------------------ *)
(** * FundamentalAnalyzer.display_results *)

(** display_results prints and does not write the state; what it can change
    is whether the script goes on: it runs outside any `try`, and
    `int(self.overview.get('MarketCapitalization', 0))` raises on a value
    that is not an integer literal.  Every other expression it evaluates
    (dict lookups, f-string formatting of str, int, float and None values)
    does not raise.  The model keeps that outcome; the printed text is
    not modelled. *)
Definition display_results (st : analyzer) : res unit :=
  match overview_of st with
  | None | Some [] => Ok tt
  | Some ov =>
      match ov_get ov "MarketCapitalization" with
      | None => Ok tt
      | Some s => let! _m := py_int s in Ok tt
      end
  end.

(* ------------------------------------------------------------------ *)
(** * The script: `if __name__ == "__main__"` up to the DCF inputs *)

Definition RISK_FREE_RATE : Q := 411 # 10000.
Definition EXPECTED_MARKET_RETURN : Q := 9 # 100.
Definition TERMINAL_GROWTH_RATE : Q := 2 # 100.

Section Main.

Variable fpow : flt -> Q -> res flt.

(** Steps 1 to 3: the analyzer after every model has run, and the CAPM
    return value.  display_results does not write the state. *)
Definition main_models (ov : option overview) (inc bs cf : option table)
  : analyzer * option flt :=
  let st := init_analyzer "AAPL" ov inc bs cf in
  let st := calculate_ratios st in
  let st := fst (calculate_piotroski_f_score st) in
  let st := calculate_historical_growth fpow st 5 in
  calculate_cost_of_equity_capm st RISK_FREE_RATE EXPECTED_MARKET_RETURN.

(** `growth_rate_5y = analyzer.ratios.get('Revenue_CAGR_5Y')` with its
    fallback to 0.08. *)
Definition main_growth_rate (ov : option overview) (inc bs cf : option table) : flt :=
  match dict_get (ratios (fst (main_models ov inc bs cf))) "Revenue_CAGR_5Y" with
  | None | Some RNone => Fin (8 # 100)
  | Some (RFloat (Fin q)) => if Qle_bool q 0 then Fin (8 # 100) else Fin q
  | Some (RFloat NaN) => NaN
  | Some (RFloat PInf) => PInf
  | Some (RFloat NInf) => Fin (8 # 100)
  | Some (RInt z) => if (z <=? 0)%Z then Fin (8 # 100) else Fin (inject_Z z)
  end.

(** `cost_of_equity`, with its fallback to 0.09. *)
Definition main_wacc (ov : option overview) (inc bs cf : option table) : flt :=
  match snd (main_models ov inc bs cf) with
  | Some k => k
  | None => Fin (9 # 100)
  end.

(** Step 4: `analyzer.display_results()`, which runs before the DCF and
    outside any `try`; an exception there ends the script. *)
Definition main_display (ov : option overview) (inc bs cf : option table) : res unit :=
  display_results (fst (main_models ov inc bs cf)).

End Main.

Example rev_key_2 : rev_key 2 = "Revenue_CAGR_2Y".
Proof. reflexivity. Qed.

(** A float power that is exact on perfect squares, for examples only. *)
Definition pow_example (x : flt) (e : Q) : res flt :=
  match x with
  | Fin q => if Qeq_bool q (144 # 100) then Ok (Fin (12 # 10)) else Ok (Fin q)
  | x => Ok x
  end.

Example growth_scenario :
  ratios (calculate_historical_growth pow_example
            (init_analyzer "T" None (Some inc_scn) None None) 5)
  = [("Revenue_CAGR_2Y", RFloat (Fin (2 # 10)));
     ("Net_Income_CAGR_2Y", RFloat (Fin (2 # 10)))].
Proof. reflexivity. Qed.

(* ------------------------------------------------------------------ *)
(** * Concrete inputs *)

(** A statement row with one column removed, as when the provider omits a
    field from every annual report. *)
Definition drop_field (k : string) (r : row) : row :=
  filter (fun p => negb (String.eqb (fst p) k)) r.

Definition bs_no_tcl : table := map (drop_field "totalCurrentLiabilities") bs_scn.
Definition st_no_tcl : analyzer :=
  init_analyzer "T" None (Some inc_scn) (Some bs_no_tcl) (Some cf_scn).

Definition bs_no_cs : table := map (drop_field "commonStock") bs_scn.
Definition st_no_cs : analyzer :=
  init_analyzer "T" None (Some inc_scn) (Some bs_no_cs) (Some cf_scn).

Definition shares_row (q : Q) : row := [("commonStock", Fin q)].

(** The scenario with zero current liabilities in the latest balance
    sheet: the current ratio of test 6 is a division by zero. *)
Definition bs_zero_tcl : table :=
  [bs_full 200 100 50 40 10; bs_full 220 100 60 40 10; bs_full 242 100 70 0 10].
Definition st_zero_tcl : analyzer :=
  init_analyzer "T" None (Some inc_scn) (Some bs_zero_tcl) (Some cf_scn).

(** The operands the F-Score reads outside any guard: total assets of the
    last three balance sheets and the operands of tests 5 to 8. *)
Definition unconditional_operands (inc_T inc_T_1 bs_T bs_T_1 bs_T_2 : row) : list pyval :=
  [row_get bs_T "totalAssets"; row_get bs_T_1 "totalAssets"; row_get bs_T_2 "totalAssets";
   row_get bs_T "longTermDebt"; row_get bs_T_1 "longTermDebt";
   row_get bs_T "totalCurrentAssets"; row_get bs_T_1 "totalCurrentAssets";
   row_get bs_T "totalCurrentLiabilities"; row_get bs_T_1 "totalCurrentLiabilities";
   row_get bs_T "commonStock"; row_get bs_T_1 "commonStock";
   row_get inc_T "grossProfit"; row_get inc_T_1 "grossProfit";
   row_get inc_T "totalRevenue"; row_get inc_T_1 "totalRevenue"].

(** Some operand is NaN and none is absent. *)
Definition nan_operand (l : list pyval) : Prop := In (PNum NaN) l /\ ~ In PNone l.

(** A test that completes and scores nothing. *)
Definition scores_zero (r : res Z) : Prop := r = Ok 0%Z.

Definition ov_pe_na : overview := ("PERatio", "N/A") :: tl ov_sample.
Definition st_pe_na : analyzer :=
  init_analyzer "T" (Some ov_pe_na) (Some [inc_row (Fin 100) (Fin 10)])
    (Some [bs_row1]) None.

Definition st_ratios : analyzer :=
  init_analyzer "T" (Some ov_sample) (Some [inc_row (Fin 100) (Fin 10)])
    (Some [bs_row1]) None.

Definition st_ni0 : analyzer :=
  init_analyzer "T" (Some ov_sample) (Some [inc_row (Fin 100) (Fin 0)])
    (Some [bs_row1]) None.

Definition st_ni_nan : analyzer :=
  init_analyzer "T" (Some ov_sample) (Some [inc_row (Fin 100) NaN])
    (Some [bs_row1]) None.

(** The value a guarded ratio `a / b` stores once both operands are
    truthy: the float64 quotient. *)
Definition margin_value (a b : pyval) : rval :=
  match a, b with
  | PNum x, PNum y => RFloat (flt_div x y)
  | _, _ => RNone
  end.

(** Steps 1 to 5 of the DCF on exact numbers: the discounted projected free
    cash flows plus the discounted perpetuity-growth terminal value. *)
Definition dcf_enterprise_value (last_fcf g w tg : Q) : Q :=
  let fcf (i : Z) := (last_fcf * Qpower (1 + g) i)%Q in
  let tv := (fcf 5%Z * (1 + tg) / (w - tg))%Q in
  (fcf 1%Z / Qpower (1 + w) 1 + fcf 2%Z / Qpower (1 + w) 2 + fcf 3%Z / Qpower (1 + w) 3
   + fcf 4%Z / Qpower (1 + w) 4 + fcf 5%Z / Qpower (1 + w) 5 + tv / Qpower (1 + w) 5)%Q.

Definition cf_dcf_row : row :=
  [("operatingCashflow", Fin 120); ("capitalExpenditures", Fin (-20))].
Definition bs_dcf_row : row :=
  [("longTermDebt", Fin 50); ("shortTermDebt", Fin 10);
   ("cashAndCashEquivalentsAtCarryingValue", Fin 30)].
Definition cf_dcf : table := [cf_dcf_row].
Definition bs_dcf : table := [bs_dcf_row].
Definition ov_no_shares : overview := [("Beta", "1.2")].
Definition st_dcf : analyzer :=
  init_analyzer "T" (Some ov_sample) None (Some bs_dcf) (Some cf_dcf).
Definition st_dcf_no_shares : analyzer :=
  init_analyzer "T" (Some ov_no_shares) None (Some bs_dcf) (Some cf_dcf).
Definition cf_dcf_pos_row : row :=
  [("operatingCashflow", Fin 120); ("capitalExpenditures", Fin 20)].
Definition st_dcf_pos : analyzer :=
  init_analyzer "T" (Some ov_sample) None (Some bs_dcf) (Some [cf_dcf_pos_row]).
Definition rev_rows (l : list flt) : table := map (fun x => [("totalRevenue", x)]) l.
Definition inc_six_zero : table := rev_rows [Fin 0; Fin 1; Fin 2; Fin 3; Fin 4; Fin 5].
Definition inc_six_pos : table := rev_rows [Fin 1; Fin 2; Fin 3; Fin 4; Fin 5; Fin 32].
Definition inc_six_nan : table := rev_rows [NaN; Fin 2; Fin 3; Fin 4; Fin 5; Fin 32].
Definition ov_mcap_none : overview := [("MarketCapitalization", "None"); ("Beta", "1.2")].
Definition inc_one : table := [[("totalRevenue", Fin 1)]].
Definition st_inc_one : analyzer := init_analyzer "T" None (Some inc_one) None None.
Definition inc_two : table := [[("totalRevenue", Fin 1)]; [("totalRevenue", Fin 2)]].
Definition st_inc_two : analyzer := init_analyzer "T" None (Some inc_two) None None.

(* ------------------------------------------------------------------ *)
(** * Proof tools *)

Lemma res_bind_ok {A B} (m : res A) (k : A -> res B) (b : B) :
  res_bind m k = Ok b -> exists a, m = Ok a /\ k a = Ok b.
Proof. destruct m as [a|e]; simpl; [eauto | discriminate]. Qed.

(** Takes apart a hypothesis `H : <chain of let!> = Ok v`. *)
Ltac res_inv H :=
  repeat match type of H with
  | res_bind _ _ = Ok _ =>
      let a := fresh "a" in let Ha := fresh "Hm" in
      apply res_bind_ok in H; destruct H as [a [Ha H]]
  | (if ?b then _ else _) = Ok _ => destruct b eqn:?
  | Ok _ = Ok _ => injection H as H
  end.

Lemma b2z_range (b : bool) : (0 <= b2z b <= 1)%Z.
Proof. destruct b; simpl; lia. Qed.

Ltac test_range :=
  let H := fresh in intro H; res_inv H; subst;
  first [apply b2z_range | lia].

Lemma test1_range r s : test1 r = Ok s -> (0 <= s <= 1)%Z.
Proof. unfold test1. test_range. Qed.
Lemma test2_range r s : test2 r = Ok s -> (0 <= s <= 1)%Z.
Proof. unfold test2. test_range. Qed.
Lemma test3_range r1 r2 a1 a2 s : test3 r1 r2 a1 a2 = Ok s -> (0 <= s <= 1)%Z.
Proof. unfold test3. test_range. Qed.
Lemma test4_range r1 r2 s : test4 r1 r2 = Ok s -> (0 <= s <= 1)%Z.
Proof. unfold test4. test_range. Qed.
Lemma test5_range r1 r2 s : test5 r1 r2 = Ok s -> (0 <= s <= 1)%Z.
Proof. unfold test5. test_range. Qed.
Lemma test6_range r1 r2 s : test6 r1 r2 = Ok s -> (0 <= s <= 1)%Z.
Proof. unfold test6. test_range. Qed.
Lemma test7_range r1 r2 s : test7 r1 r2 = Ok s -> (0 <= s <= 1)%Z.
Proof. unfold test7. test_range. Qed.
Lemma test8_range r1 r2 s : test8 r1 r2 = Ok s -> (0 <= s <= 1)%Z.
Proof. unfold test8. test_range. Qed.
Lemma test9_range r1 r2 a1 a2 s : test9 r1 r2 a1 a2 = Ok s -> (0 <= s <= 1)%Z.
Proof. unfold test9. test_range. Qed.

Lemma f_score_body_range inc bs cf s :
  f_score_body inc bs cf = Ok s -> (0 <= s <= 9)%Z.
Proof.
  unfold f_score_body. intro H. res_inv H. subst.
  repeat match goal with
  | Hm : test1 _ = Ok _ |- _ => apply test1_range in Hm
  | Hm : test2 _ = Ok _ |- _ => apply test2_range in Hm
  | Hm : test3 _ _ _ _ = Ok _ |- _ => apply test3_range in Hm
  | Hm : test4 _ _ = Ok _ |- _ => apply test4_range in Hm
  | Hm : test5 _ _ = Ok _ |- _ => apply test5_range in Hm
  | Hm : test6 _ _ = Ok _ |- _ => apply test6_range in Hm
  | Hm : test7 _ _ = Ok _ |- _ => apply test7_range in Hm
  | Hm : test8 _ _ = Ok _ |- _ => apply test8_range in Hm
  | Hm : test9 _ _ _ _ = Ok _ |- _ => apply test9_range in Hm
  end.
  lia.
Qed.

(** Operands that a completed test has read were present. *)
Ltac present_operands H :=
  repeat split; let E := fresh "E" in intro E; rewrite E in H;
  repeat (cbn [res_bind py_div py_cmp py_gt py_lt py_le py_add py_arith num] in H;
          first [ discriminate H
                | match type of H with
                  | context [row_get ?r ?k] => destruct (row_get r k) as [|[?| | |]]
                  end ]).

Lemma avg_assets_present r1 r2 v :
  avg_assets r1 r2 = Ok v ->
  row_get r1 "totalAssets" <> PNone /\ row_get r2 "totalAssets" <> PNone.
Proof. unfold avg_assets. intro H. present_operands H. Qed.

Lemma test5_present r1 r2 s :
  test5 r1 r2 = Ok s ->
  row_get r1 "longTermDebt" <> PNone /\ row_get r2 "longTermDebt" <> PNone.
Proof. unfold test5. intro H. present_operands H. Qed.

Lemma test6_present r1 r2 s :
  test6 r1 r2 = Ok s ->
  row_get r1 "totalCurrentAssets" <> PNone /\ row_get r2 "totalCurrentAssets" <> PNone /\
  row_get r1 "totalCurrentLiabilities" <> PNone /\ row_get r2 "totalCurrentLiabilities" <> PNone.
Proof. unfold test6. intro H. present_operands H. Qed.

Lemma test7_present r1 r2 s :
  test7 r1 r2 = Ok s ->
  row_get r1 "commonStock" <> PNone /\ row_get r2 "commonStock" <> PNone.
Proof. unfold test7. intro H. present_operands H. Qed.

Lemma test8_present r1 r2 s :
  test8 r1 r2 = Ok s ->
  row_get r1 "grossProfit" <> PNone /\ row_get r2 "grossProfit" <> PNone /\
  row_get r1 "totalRevenue" <> PNone /\ row_get r2 "totalRevenue" <> PNone.
Proof. unfold test8. intro H. present_operands H. Qed.

Lemma f_score_body_present inc bs cf s inc_T inc_T_1 bs_T bs_T_1 bs_T_2 :
  f_score_body inc bs cf = Ok s ->
  iloc inc (-1) = Ok inc_T -> iloc inc (-2) = Ok inc_T_1 ->
  iloc bs (-1) = Ok bs_T -> iloc bs (-2) = Ok bs_T_1 -> iloc bs (-3) = Ok bs_T_2 ->
  ~ In PNone (unconditional_operands inc_T inc_T_1 bs_T bs_T_1 bs_T_2).
Proof.
  unfold f_score_body. intros H H1 H2 H3 H4 H5. res_inv H.
  repeat match goal with
  | Ha : iloc ?l ?k = Ok ?x, Hb : iloc ?l ?k = Ok ?y |- _ =>
      rewrite Ha in Hb; injection Hb as ->
  end.
  repeat match goal with
  | Hm : avg_assets _ _ = Ok _ |- _ => apply avg_assets_present in Hm
  | Hm : test5 _ _ = Ok _ |- _ => apply test5_present in Hm
  | Hm : test6 _ _ = Ok _ |- _ => apply test6_present in Hm
  | Hm : test7 _ _ = Ok _ |- _ => apply test7_present in Hm
  | Hm : test8 _ _ = Ok _ |- _ => apply test8_present in Hm
  end.
  unfold unconditional_operands. simpl. intuition congruence.
Qed.

(** A NaN operand, all operands present: the test scores 0. *)
Ltac nan_cases :=
  unfold nan_operand, scores_zero; intros [Hin Hnone];
  repeat match goal with
  | |- context [row_get ?r ?k] => destruct (row_get r k) as [|[?| | |]]
  end;
  try (solve [exfalso; simpl in Hin, Hnone; intuition congruence]);
  repeat (cbn [res_bind py_div py_cmp py_gt py_lt py_le py_add py_arith num zero b2z truthy
               flt_div flt_add flt_neg inf_rank] ;
          first [ reflexivity
                | match goal with
                  | |- context [Qeq_bool ?a ?b] => destruct (Qeq_bool a b)
                  | |- context [Qltb ?a ?b] => destruct (Qltb a b)
                  | |- context [Qle_bool ?a ?b] => destruct (Qle_bool a b)
                  end ]).

Lemma test1_nan r : nan_operand [row_get r "netIncome"] -> scores_zero (test1 r).
Proof. unfold test1. nan_cases. Qed.

Lemma test2_nan r : nan_operand [row_get r "operatingCashflow"] -> scores_zero (test2 r).
Proof. unfold test2. nan_cases. Qed.

Lemma test3_nan r1 r2 a1 a2 :
  nan_operand [row_get r1 "netIncome"; row_get r2 "netIncome"; a1; a2] ->
  scores_zero (test3 r1 r2 a1 a2).
Proof. unfold test3. destruct a1 as [|[?| | |]], a2 as [|[?| | |]]; nan_cases. Qed.

Lemma test4_nan r1 r2 :
  nan_operand [row_get r2 "operatingCashflow"; row_get r1 "netIncome"] ->
  scores_zero (test4 r1 r2).
Proof. unfold test4. nan_cases. Qed.

Lemma test5_nan r1 r2 :
  nan_operand [row_get r1 "longTermDebt"; row_get r1 "totalAssets";
               row_get r2 "longTermDebt"; row_get r2 "totalAssets"] ->
  scores_zero (test5 r1 r2).
Proof. unfold test5. nan_cases. Qed.

Lemma test6_nan r1 r2 :
  nan_operand [row_get r1 "totalCurrentAssets"; row_get r1 "totalCurrentLiabilities";
               row_get r2 "totalCurrentAssets"; row_get r2 "totalCurrentLiabilities"] ->
  scores_zero (test6 r1 r2).
Proof. unfold test6. nan_cases. Qed.

Lemma test7_nan r1 r2 :
  nan_operand [row_get r1 "commonStock"; row_get r2 "commonStock"] ->
  scores_zero (test7 r1 r2).
Proof. unfold test7. nan_cases. Qed.

Lemma test8_nan r1 r2 :
  nan_operand [row_get r1 "grossProfit"; row_get r1 "totalRevenue";
               row_get r2 "grossProfit"; row_get r2 "totalRevenue"] ->
  scores_zero (test8 r1 r2).
Proof. unfold test8. nan_cases. Qed.

Lemma test9_nan r1 r2 a1 a2 :
  nan_operand [row_get r1 "totalRevenue"; row_get r2 "totalRevenue"; a1; a2] ->
  scores_zero (test9 r1 r2 a1 a2).
Proof. unfold test9. destruct a1 as [|[?| | |]], a2 as [|[?| | |]]; nan_cases. Qed.

Lemma dict_get_set (d : dict) (k k' : string) (v : rval) :
  dict_get (dict_set d k v) k' = if String.eqb k' k then Some v else dict_get d k'.
Proof.
  unfold dict_get.
  induction d as [|[k0 v0] d IH]; simpl.
  - destruct (String.eqb k' k); reflexivity.
  - destruct (String.eqb k k0) eqn:E1; simpl.
    + apply String.eqb_eq in E1. subst k0.
      destruct (String.eqb k' k); reflexivity.
    + destruct (String.eqb k' k0) eqn:E2.
      * apply String.eqb_eq in E2. subst k0.
        destruct (String.eqb k' k) eqn:E3; [|reflexivity].
        apply String.eqb_eq in E3. subst k. rewrite String.eqb_refl in E1. discriminate.
      * exact IH.
Qed.

(** A computation over self.ratios that leaves the key k alone. *)
Definition preserves {A} (k : string) (m : SE A) : Prop :=
  forall d, dict_get (fst (m d)) k = dict_get d k.

Lemma preserves_ret {A} k (a : A) : preserves k (se_ret a).
Proof. intro d. reflexivity. Qed.

Lemma preserves_lift {A} k (m : res A) : preserves k (se_lift m).
Proof. intro d. reflexivity. Qed.

Lemma preserves_set k k' v : String.eqb k k' = false -> preserves k (se_set k' v).
Proof. intros H d. simpl. rewrite dict_get_set, H. reflexivity. Qed.

Lemma preserves_bind {A B} k (m : SE A) (f : A -> SE B) :
  preserves k m -> (forall a, preserves k (f a)) -> preserves k (se_bind m f).
Proof.
  intros Hm Hf d. unfold se_bind. specialize (Hm d).
  destruct (m d) as [d' [a|e]]; simpl in *; [rewrite Hf|]; exact Hm.
Qed.

Lemma preserves_if {A} k (b : bool) (m1 m2 : SE A) :
  preserves k m1 -> preserves k m2 -> preserves k (if b then m1 else m2).
Proof. destruct b; auto. Qed.

Ltac solve_preserves :=
  repeat first [ apply preserves_bind; [|intro]
               | apply preserves_if
               | apply preserves_ret
               | apply preserves_lift
               | apply preserves_set; reflexivity ].

Lemma se_bind_lift_ok {A B} (m : res A) (f : A -> SE B) a d :
  m = Ok a -> se_bind (se_lift m) f d = f a d.
Proof. intros ->. reflexivity. Qed.

Lemma se_bind_set {B} k v (f : unit -> SE B) d :
  se_bind (se_set k v) f d = f tt (dict_set d k v).
Proof. reflexivity. Qed.

Lemma get_bind_preserves {A B} k (m : SE A) (f : A -> SE B) d :
  (forall a, preserves k (f a)) ->
  dict_get (fst (se_bind m f d)) k = dict_get (fst (m d)) k.
Proof.
  intros Hf. unfold se_bind. destruct (m d) as [d' [a|e]]; simpl; [apply Hf | reflexivity].
Qed.

Lemma py_div_truthy (a b : pyval) :
  truthy a = true -> truthy b = true ->
  exists v, py_div a b = Ok v /\ of_pyval v = margin_value a b.
Proof.
  destruct a as [|x], b as [|y]; simpl; try discriminate; intros Ha Hb.
  eexists; split; reflexivity.
Qed.

Lemma ratios_run_try {A} st (body : SE A) :
  ratios (fst (run_try st body)) = fst (body (ratios st)).
Proof. unfold run_try. destruct (body (ratios st)). reflexivity. Qed.

Lemma dcf_body_some_shares cf bs ov g w tg r :
  run_simple_dcf_body cf bs ov g w tg = Ok (Some r) ->
  exists s n, ov_get ov "SharesOutstanding" = Some s /\ py_int s = Ok n /\ n <> 0%Z.
Proof.
  unfold run_simple_dcf_body. intro H. res_inv H.
  all: try discriminate H.
  destruct (ov_get ov "SharesOutstanding") as [s|]; [|discriminate H].
  res_inv H; [discriminate H|].
  exists s. eexists. split; [reflexivity|]. split; [eassumption|].
  apply Z.eqb_neq. assumption.
Qed.

(** Writes the finite values of a goal back as `num`. *)
Ltac fold_num :=
  repeat match goal with
  | |- context [PNum (Fin ?x)] => change (PNum (Fin x)) with (num x)
  end.

Lemma py_div_num x y : ~ (y == 0)%Q -> py_div (num x) (num y) = Ok (num (x / y)).
Proof.
  intro H. unfold py_div, py_arith, num, flt_div.
  destruct (Qeq_bool y 0) eqn:E; [|reflexivity].
  apply Qeq_bool_iff in E. contradiction.
Qed.

Lemma py_add_pnum x y : exists z, py_add (PNum x) (PNum y) = Ok (PNum z).
Proof. eexists; reflexivity. Qed.

Lemma py_sub_pnum x y : exists z, py_sub (PNum x) (PNum y) = Ok (PNum z).
Proof. eexists; reflexivity. Qed.

Lemma row_get_d_pnum r k : exists x, row_get_d r k zero = PNum x.
Proof. unfold row_get_d. destruct (assoc k r); eexists; reflexivity. Qed.

Lemma py_div_pnum_num x y : ~ (y == 0)%Q -> exists v, py_div (PNum x) (num y) = Ok v.
Proof.
  intros _. eexists; reflexivity.
Qed.

Lemma project_fcf_num f g :
  project_fcf (num f) g =
  Ok [num (f * Qpower (1 + g) 1); num (f * Qpower (1 + g) 2); num (f * Qpower (1 + g) 3);
      num (f * Qpower (1 + g) 4); num (f * Qpower (1 + g) 5)].
Proof. reflexivity. Qed.

Lemma iloc_last5 {A} (a b c d e : A) : iloc [a; b; c; d; e] (-1) = Ok e.
Proof. reflexivity. Qed.


Lemma iloc_neg {A} (l : list A) (k : Z) (d : A) :
  (1 <= k <= Z.of_nat (length l))%Z ->
  iloc l (- k) = Ok (nth (Z.to_nat (Z.of_nat (length l) - k)) l d).
Proof.
  intros Hk. unfold iloc.
  replace (- k <? 0)%Z with true by (symmetry; apply Z.ltb_lt; lia).
  replace (Z.of_nat (length l) + - k <? 0)%Z with false by (symmetry; apply Z.ltb_ge; lia).
  replace (Z.of_nat (length l) + - k)%Z with (Z.of_nat (length l) - k)%Z by lia.
  rewrite (nth_error_nth' l d) by lia. reflexivity.
Qed.

Lemma string_length_app (s t : string) :
  String.length (s +:+ t) = (String.length s + String.length t)%nat.
Proof. induction s; simpl; auto. Qed.

Lemma string_app_l_inj (p s t : string) : p +:+ s = p +:+ t -> s = t.
Proof. induction p as [|a p IH]; simpl; intros H; [exact H|]. injection H. exact IH. Qed.

Lemma string_app_r_inj (s1 s2 t : string) : s1 +:+ t = s2 +:+ t -> s1 = s2.
Proof.
  revert s2. induction s1 as [|a s1 IH]; intros [|b s2] H; simpl in H; auto.
  - exfalso. apply (f_equal String.length) in H. simpl in H.
    rewrite !string_length_app in H. simpl in H. lia.
  - exfalso. apply (f_equal String.length) in H. simpl in H.
    rewrite !string_length_app in H. simpl in H. lia.
  - injection H as -> H. f_equal. apply IH. exact H.
Qed.

Lemma rev_key_inj (a b : Z) : rev_key a = rev_key b -> a = b.
Proof.
  unfold rev_key. intros H.
  apply string_app_l_inj, string_app_r_inj in H.
  apply (inj pretty). exact H.
Qed.

Lemma rev_ni_key_neq (a b : Z) : String.eqb (rev_key a) (ni_key b) = false.
Proof. reflexivity. Qed.

Lemma rev_key_5 : rev_key 5 = "Revenue_CAGR_5Y".
Proof. reflexivity. Qed.

Lemma growth_preserves fpow st y k :
  (forall inc, income_statement st = Some inc ->
     String.eqb k (rev_key (effective_window inc y)) = false /\
     String.eqb k (ni_key (effective_window inc y)) = false) ->
  dict_get (ratios (calculate_historical_growth fpow st y)) k = dict_get (ratios st) k.
Proof.
  intros H. unfold calculate_historical_growth.
  destruct (income_statement st) as [inc|] eqn:Ei; [|reflexivity].
  destruct (length inc <? 2)%nat; [reflexivity|].
  destruct (effective_window inc y =? 0)%Z; [reflexivity|].
  rewrite ratios_run_try. destruct (H inc eq_refl) as [H1 H2].
  unfold calculate_historical_growth_body.
  revert H1 H2. generalize (effective_window inc y). intros w H1 H2.
  assert (Hp : preserves k (slet start_report := se_lift (iloc inc (-1 - w)) in
    slet end_report := se_lift (iloc inc (-1)) in
    slet revenue_cagr := se_lift (calculate_cagr fpow (row_get start_report "totalRevenue")
                                   (row_get end_report "totalRevenue") w) in
    slet _u := se_set (rev_key w) revenue_cagr in
    slet net_income_cagr := se_lift (calculate_cagr fpow (row_get start_report "netIncome")
                                      (row_get end_report "netIncome") w) in
    se_set (ni_key w) net_income_cagr)).
  { repeat first [ apply preserves_bind; [|intro]
                 | apply preserves_lift
                 | apply preserves_set; assumption ]. }
  apply Hp.
Qed.

Lemma ratios_income st : income_statement (calculate_ratios st) = income_statement st.
Proof.
  unfold calculate_ratios, run_try.
  destruct (overview_of st), (income_statement st) eqn:E, (balance_sheet st);
    try exact E; try reflexivity.
  destruct (calculate_ratios_body _ _ _ _). exact E.
Qed.

Lemma ratios_keep_rev5 st :
  dict_get (ratios (calculate_ratios st)) "Revenue_CAGR_5Y" =
  dict_get (ratios st) "Revenue_CAGR_5Y".
Proof.
  unfold calculate_ratios.
  destruct (overview_of st), (income_statement st), (balance_sheet st); try reflexivity.
  rewrite ratios_run_try. unfold calculate_ratios_body. solve_preserves.
Qed.

Lemma f_score_income st :
  income_statement (fst (calculate_piotroski_f_score st)) = income_statement st.
Proof.
  unfold calculate_piotroski_f_score.
  destruct (income_statement st) eqn:E, (balance_sheet st), (cash_flow st);
    try exact E; try reflexivity.
  destruct (f_score_preconditions _ _ _); [|exact E].
  destruct (f_score_body _ _ _); exact E.
Qed.

Lemma f_score_keep_rev5 st :
  dict_get (ratios (fst (calculate_piotroski_f_score st))) "Revenue_CAGR_5Y" =
  dict_get (ratios st) "Revenue_CAGR_5Y".
Proof.
  unfold calculate_piotroski_f_score.
  destruct (income_statement st), (balance_sheet st), (cash_flow st); try reflexivity.
  destruct (f_score_preconditions _ _ _); [|reflexivity].
  destruct (f_score_body _ _ _); [|reflexivity].
  simpl. rewrite dict_get_set. reflexivity.
Qed.

Lemma capm_keep_rev5 st r m :
  dict_get (ratios (fst (calculate_cost_of_equity_capm st r m))) "Revenue_CAGR_5Y" =
  dict_get (ratios st) "Revenue_CAGR_5Y".
Proof.
  unfold calculate_cost_of_equity_capm.
  destruct (overview_of st); [|reflexivity].
  destruct (ov_get _ "Beta"); [|reflexivity].
  destruct (String.eqb _ "N/A"); [reflexivity|].
  destruct (py_float _); [|reflexivity].
  simpl. rewrite dict_get_set. reflexivity.
Qed.

Lemma py_div_pos_zero x y :
  (0 < x)%Q -> (y == 0)%Q -> py_div (num x) (num y) = Ok (PNum PInf).
Proof.
  intros Hx Hy. unfold py_div, py_arith, num, flt_div.
  rewrite (proj2 (Qeq_bool_iff y 0) Hy).
  destruct (Qeq_bool x 0) eqn:E0.
  { apply Qeq_bool_iff in E0. rewrite E0 in Hx. discriminate Hx. }
  unfold Qltb. rewrite (proj2 (Qle_bool_iff 0 x) (Qlt_le_weak _ _ Hx)). reflexivity.
Qed.

Lemma py_div_inf_pos y : (0 < y)%Q -> py_div (PNum PInf) (num y) = Ok (PNum PInf).
Proof.
  intro Hy. unfold py_div, py_arith, num, flt_div.
  unfold Qltb. rewrite (proj2 (Qle_bool_iff 0 y) (Qlt_le_weak _ _ Hy)). reflexivity.
Qed.

Lemma discount_from_5 w a1 a2 a3 a4 a5 :
  ~ (1 + w == 0)%Q ->
  discount_from 0 w [num a1; num a2; num a3; num a4; num a5] =
  Ok [num (a1 / Qpower (1 + w) 1); num (a2 / Qpower (1 + w) 2);
      num (a3 / Qpower (1 + w) 3); num (a4 / Qpower (1 + w) 4);
      num (a5 / Qpower (1 + w) 5)].
Proof.
  intro Hw. cbn [discount_from res_bind].
  rewrite !py_div_num by (apply Qpower_not_0; exact Hw).
  reflexivity.
Qed.

(** Tests whose operands are present complete: no division or comparison
    of numbers raises. *)
Lemma py_cmp_pnum c cr x y : exists b, py_cmp c cr (PNum x) (PNum y) = Ok b.
Proof. destruct x, y; eexists; reflexivity. Qed.

Lemma not_none v : v <> PNone -> exists x, v = PNum x.
Proof. destruct v as [|x]; [congruence | eauto]. Qed.

Ltac ok_tac :=
  unfold py_gt, py_lt, py_le, zero, num;
  repeat (cbn [res_bind py_gt py_lt py_le py_div py_add py_arith zero num truthy andb negb];
    match goal with
    | |- context [Qeq_bool ?a ?b] => destruct (Qeq_bool a b)
    | |- context [py_cmp ?c ?cr (PNum ?x) (PNum ?y)] =>
        let b := fresh "b" in let E := fresh "E" in
        destruct (py_cmp_pnum c cr x y) as [b E]; rewrite E
    | |- context [if ?b then _ else _] => destruct b
    end);
  eexists; reflexivity.

Ltac present_as_num :=
  repeat match goal with
  | H : ?v <> PNone |- _ =>
      let x := fresh "x" in let E := fresh "E" in
      destruct (not_none v H) as [x E]; clear H; rewrite E
  end.

Lemma test1_ok r : exists s, test1 r = Ok s.
Proof. unfold test1. destruct (row_get r "netIncome") as [|[?| | |]]; ok_tac. Qed.

Lemma test2_ok r : exists s, test2 r = Ok s.
Proof. unfold test2. destruct (row_get r "operatingCashflow") as [|[?| | |]]; ok_tac. Qed.

Lemma avg_assets_ok r1 r2 :
  row_get r1 "totalAssets" <> PNone -> row_get r2 "totalAssets" <> PNone ->
  exists x, avg_assets r1 r2 = Ok (PNum x).
Proof. unfold avg_assets. intros. present_as_num. ok_tac. Qed.

Lemma test3_ok r1 r2 x1 x2 :
  row_get r1 "netIncome" <> PNone -> row_get r2 "netIncome" <> PNone ->
  exists s, test3 r1 r2 (PNum x1) (PNum x2) = Ok s.
Proof. unfold test3. intros. present_as_num. ok_tac. Qed.

Lemma test4_ok r1 r2 : exists s, test4 r1 r2 = Ok s.
Proof.
  unfold test4.
  destruct (row_get r1 "netIncome") as [|[?| | |]], (row_get r2 "operatingCashflow") as [|[?| | |]];
    ok_tac.
Qed.

Lemma test5_ok r1 r2 :
  row_get r1 "longTermDebt" <> PNone -> row_get r1 "totalAssets" <> PNone ->
  row_get r2 "longTermDebt" <> PNone -> row_get r2 "totalAssets" <> PNone ->
  exists s, test5 r1 r2 = Ok s.
Proof. unfold test5. intros. present_as_num. ok_tac. Qed.

Lemma test6_ok r1 r2 :
  row_get r1 "totalCurrentAssets" <> PNone -> row_get r1 "totalCurrentLiabilities" <> PNone ->
  row_get r2 "totalCurrentAssets" <> PNone -> row_get r2 "totalCurrentLiabilities" <> PNone ->
  exists s, test6 r1 r2 = Ok s.
Proof. unfold test6. intros. present_as_num. ok_tac. Qed.

Lemma test7_ok r1 r2 :
  row_get r1 "commonStock" <> PNone -> row_get r2 "commonStock" <> PNone ->
  exists s, test7 r1 r2 = Ok s.
Proof. unfold test7. intros. present_as_num. ok_tac. Qed.

Lemma test8_ok r1 r2 :
  row_get r1 "grossProfit" <> PNone -> row_get r1 "totalRevenue" <> PNone ->
  row_get r2 "grossProfit" <> PNone -> row_get r2 "totalRevenue" <> PNone ->
  exists s, test8 r1 r2 = Ok s.
Proof. unfold test8. intros. present_as_num. ok_tac. Qed.

Lemma test9_ok r1 r2 x1 x2 :
  row_get r1 "totalRevenue" <> PNone -> row_get r2 "totalRevenue" <> PNone ->
  exists s, test9 r1 r2 (PNum x1) (PNum x2) = Ok s.
Proof. unfold test9. intros. present_as_num. ok_tac. Qed.

Lemma f_score_body_complete inc bs cf inc_T inc_T_1 bs_T bs_T_1 bs_T_2 cf_T :
  iloc inc (-1) = Ok inc_T -> iloc inc (-2) = Ok inc_T_1 ->
  iloc bs (-1) = Ok bs_T -> iloc bs (-2) = Ok bs_T_1 -> iloc bs (-3) = Ok bs_T_2 ->
  iloc cf (-1) = Ok cf_T ->
  ~ In PNone (unconditional_operands inc_T inc_T_1 bs_T bs_T_1 bs_T_2) ->
  row_get inc_T "netIncome" <> PNone -> row_get inc_T_1 "netIncome" <> PNone ->
  exists s, f_score_body inc bs cf = Ok s.
Proof.
  intros H1 H2 H3 H4 H5 H6 Hn Hi Hi1.
  assert (P : forall v, In v (unconditional_operands inc_T inc_T_1 bs_T bs_T_1 bs_T_2) ->
              v <> PNone) by (intros v Hv E; subst v; contradiction).
  unfold unconditional_operands in P. simpl in P.
  unfold f_score_body. rewrite H1, H2, H3, H4, H5, H6. cbn [res_bind].
  destruct (test1_ok inc_T) as [s1 E1]. rewrite E1. cbn [res_bind].
  destruct (test2_ok cf_T) as [s2 E2]. rewrite E2. cbn [res_bind].
  destruct (avg_assets_ok bs_T bs_T_1) as [x1 A1]; [apply P; tauto .. |].
  rewrite A1. cbn [res_bind].
  destruct (avg_assets_ok bs_T_1 bs_T_2) as [x2 A2]; [apply P; tauto .. |].
  rewrite A2. cbn [res_bind].
  destruct (test3_ok inc_T inc_T_1 x1 x2 Hi Hi1) as [s3 E3]. rewrite E3. cbn [res_bind].
  destruct (test4_ok inc_T cf_T) as [s4 E4]. rewrite E4. cbn [res_bind].
  destruct (test5_ok bs_T bs_T_1) as [s5 E5]; [apply P; tauto .. |].
  rewrite E5. cbn [res_bind].
  destruct (test6_ok bs_T bs_T_1) as [s6 E6]; [apply P; tauto .. |].
  rewrite E6. cbn [res_bind].
  destruct (test7_ok bs_T bs_T_1) as [s7 E7]; [apply P; tauto .. |].
  rewrite E7. cbn [res_bind].
  destruct (test8_ok inc_T inc_T_1) as [s8 E8]; [apply P; tauto .. |].
  rewrite E8. cbn [res_bind].
  destruct (test9_ok inc_T inc_T_1 x1 x2) as [s9 E9]; [apply P; tauto .. |].
  rewrite E9. cbn [res_bind]. eexists; reflexivity.
Qed.

(** The row-count guard makes the latest cash-flow row available. *)
Lemma f_score_preconditions_cf inc bs cf :
  f_score_preconditions inc bs cf = true -> exists cf_T, iloc cf (-1) = Ok cf_T.
Proof.
  unfold f_score_preconditions. intro H.
  apply andb_true_iff in H as [_ H]. apply Nat.leb_le in H.
  destruct cf as [|c cf']; [simpl in H; lia|].
  eexists. exact (iloc_neg (c :: cf') 1 c ltac:(lia)).
Qed.


(* ================================================================== *)
(** * Claims *)

(** C3 (as stated, refuted): when the row-count preconditions hold the
    F-Score is not always recorded: with the balance sheet lacking the
    totalCurrentLiabilities column, test 6 raises, the `except` swallows
    it, and no Piotroski_F_Score enters the metrics mapping. *)
Lemma C3_counterexample :
  f_score_preconditions inc_scn bs_no_tcl cf_scn = true /\
  dict_get (ratios (fst (calculate_piotroski_f_score st_no_tcl))) "Piotroski_F_Score" = None.
Proof. split; reflexivity. Qed.

(** C3 (amended): if a statement table is unavailable or a row-count
    precondition fails, the F-Score leaves the state unchanged and returns
    None; otherwise it either records an integer in [0,9] under
    Piotroski_F_Score (and changes nothing else), or, when an operand
    raises, records nothing.  With every operand present a score is always
    recorded: a zero denominator or a NaN or infinite operand raises
    nothing (numpy division gives inf or NaN). *)
Theorem f_score_in_range_or_skipped (st : analyzer) :
  ((income_statement st = None \/ balance_sheet st = None \/ cash_flow st = None) ->
   calculate_piotroski_f_score st = (st, None)) /\
  (forall inc bs cf, income_statement st = Some inc -> balance_sheet st = Some bs ->
     cash_flow st = Some cf -> f_score_preconditions inc bs cf = false ->
     calculate_piotroski_f_score st = (st, None)) /\
  (forall s, snd (calculate_piotroski_f_score st) = Some s ->
     (0 <= s <= 9)%Z /\
     fst (calculate_piotroski_f_score st) =
       with_ratios st (dict_set (ratios st) "Piotroski_F_Score" (RInt s))) /\
  (snd (calculate_piotroski_f_score st) = None ->
     fst (calculate_piotroski_f_score st) = st) /\
  (forall inc bs cf inc_T inc_T_1 bs_T bs_T_1 bs_T_2,
     income_statement st = Some inc -> balance_sheet st = Some bs ->
     cash_flow st = Some cf -> f_score_preconditions inc bs cf = true ->
     iloc inc (-1) = Ok inc_T -> iloc inc (-2) = Ok inc_T_1 ->
     iloc bs (-1) = Ok bs_T -> iloc bs (-2) = Ok bs_T_1 -> iloc bs (-3) = Ok bs_T_2 ->
     ~ In PNone (unconditional_operands inc_T inc_T_1 bs_T bs_T_1 bs_T_2) ->
     row_get inc_T "netIncome" <> PNone -> row_get inc_T_1 "netIncome" <> PNone ->
     exists s, snd (calculate_piotroski_f_score st) = Some s).
Proof.
  unfold calculate_piotroski_f_score.
  split; [|split; [|split; [|split]]].
  - intros [H|[H|H]]; rewrite H;
      [reflexivity | destruct (income_statement st); reflexivity
      | destruct (income_statement st), (balance_sheet st); reflexivity].
  - intros inc bs cf Hi Hb Hc Hp. rewrite Hi, Hb, Hc, Hp. reflexivity.
  - intros s. destruct (income_statement st), (balance_sheet st), (cash_flow st);
      simpl; try discriminate.
    destruct (f_score_preconditions _ _ _); [|discriminate].
    destruct (f_score_body _ _ _) eqn:E; simpl; [|discriminate].
    intro H; injection H as <-. split; [eapply f_score_body_range; eauto | reflexivity].
  - destruct (income_statement st), (balance_sheet st), (cash_flow st);
      simpl; try reflexivity.
    destruct (f_score_preconditions _ _ _); [|reflexivity].
    destruct (f_score_body _ _ _); simpl; [discriminate | reflexivity].
  - intros inc bs cf inc_T inc_T_1 bs_T bs_T_1 bs_T_2 Hi Hb Hc Hp H1 H2 H3 H4 H5 Hn Hni Hni1.
    destruct (f_score_preconditions_cf _ _ _ Hp) as [cf_T H6].
    destruct (f_score_body_complete inc bs cf inc_T inc_T_1 bs_T bs_T_1 bs_T_2 cf_T
                H1 H2 H3 H4 H5 H6 Hn Hni Hni1) as [s Hs].
    exists s. rewrite Hi, Hb, Hc, Hp, Hs. reflexivity.
Qed.

(** Zero current liabilities in the latest balance sheet: the current
    ratio is +inf, test 6 scores its point and the score is recorded. *)
Lemma f_score_in_range_or_skipped_witness :
  snd (calculate_piotroski_f_score st_zero_tcl) = Some 9%Z /\
  exists s, snd (calculate_piotroski_f_score st_zero_tcl) = Some s.
Proof.
  split; [reflexivity|].
  apply (proj2 (proj2 (proj2 (proj2 (f_score_in_range_or_skipped st_zero_tcl))))
           inc_scn bs_zero_tcl cf_scn (inc_full 144 (144 / 10) 62) (inc_full 120 12 50)
           (bs_full 242 100 70 0 10) (bs_full 220 100 60 40 10) (bs_full 200 100 50 40 10));
    try reflexivity; try discriminate.
  vm_compute. intuition discriminate.
Defined.

(** C9: test 7 (no dilution) is the non-strict test: on present share
    counts it completes and scores its point exactly when the count at T is
    at most the count at T-1, so equal counts score the point. *)
Theorem test7_non_strict (bs_T bs_T_1 : row) (a b : Q)
  (Ha : row_get bs_T "commonStock" = num a)
  (Hb : row_get bs_T_1 "commonStock" = num b) :
  test7 bs_T bs_T_1 = Ok (if Qle_bool a b then 1 else 0)%Z /\
  (test7 bs_T bs_T_1 = Ok 1%Z <-> (a <= b)%Q) /\
  ((a == b)%Q -> test7 bs_T bs_T_1 = Ok 1%Z).
Proof.
  unfold test7. rewrite Ha, Hb. simpl.
  split; [reflexivity|]. split.
  - split.
    + intro H. destruct (Qle_bool a b) eqn:E; [apply Qle_bool_iff; exact E|].
      discriminate H.
    + intro H. apply Qle_bool_iff in H. rewrite H. reflexivity.
  - intro H. assert (Hle : (a <= b)%Q) by (rewrite H; apply Qle_refl).
    apply Qle_bool_iff in Hle. rewrite Hle. reflexivity.
Qed.

Lemma test7_non_strict_witness :
  row_get (shares_row 10) "commonStock" = num 10 /\
  test7 (shares_row 10) (shares_row 10) = Ok 1%Z.
Proof.
  split; [reflexivity|].
  apply (test7_non_strict (shares_row 10) (shares_row 10) 10 10 eq_refl eq_refl).
  apply Qeq_refl.
Defined.

(** C4 (as stated, refuted): a missing operand does not cost only its own
    test.  With the commonStock column absent (the operands of test 7
    only), the preconditions hold and every other test could be scored,
    yet the whole F-Score is dropped. *)
Lemma C4_counterexample :
  f_score_preconditions inc_scn bs_no_cs cf_scn = true /\
  f_score_body inc_scn bs_scn cf_scn = Ok 9%Z /\
  calculate_piotroski_f_score st_no_cs = (st_no_cs, None).
Proof. split; [|split]; reflexivity. Qed.

(** C4 (amended): for inputs with the required rows, an absent total-assets
    figure of the last three balance sheets, or an absent operand of tests
    5 to 8, raises and aborts the whole F-Score (state unchanged, no score
    recorded); tests 1, 2 and 4 score 0 when net income or operating cash
    flow is absent; an operand present as NaN, with the test's other
    operands present, makes its test score 0. *)
Theorem f_score_missing_operands :
  (forall st inc bs cf inc_T inc_T_1 bs_T bs_T_1 bs_T_2,
     income_statement st = Some inc -> balance_sheet st = Some bs ->
     cash_flow st = Some cf ->
     iloc inc (-1) = Ok inc_T -> iloc inc (-2) = Ok inc_T_1 ->
     iloc bs (-1) = Ok bs_T -> iloc bs (-2) = Ok bs_T_1 -> iloc bs (-3) = Ok bs_T_2 ->
     In PNone (unconditional_operands inc_T inc_T_1 bs_T bs_T_1 bs_T_2) ->
     calculate_piotroski_f_score st = (st, None)) /\
  (forall inc_T cf_T, row_get inc_T "netIncome" = PNone ->
     test1 inc_T = Ok 0%Z /\ test4 inc_T cf_T = Ok 0%Z) /\
  (forall inc_T cf_T, row_get cf_T "operatingCashflow" = PNone ->
     test2 cf_T = Ok 0%Z /\ test4 inc_T cf_T = Ok 0%Z) /\
  (forall r, nan_operand [row_get r "netIncome"] -> scores_zero (test1 r)) /\
  (forall r, nan_operand [row_get r "operatingCashflow"] -> scores_zero (test2 r)) /\
  (forall r1 r2 a1 a2,
     nan_operand [row_get r1 "netIncome"; row_get r2 "netIncome"; a1; a2] ->
     scores_zero (test3 r1 r2 a1 a2)) /\
  (forall r1 r2,
     nan_operand [row_get r2 "operatingCashflow"; row_get r1 "netIncome"] ->
     scores_zero (test4 r1 r2)) /\
  (forall r1 r2,
     nan_operand [row_get r1 "longTermDebt"; row_get r1 "totalAssets";
                  row_get r2 "longTermDebt"; row_get r2 "totalAssets"] ->
     scores_zero (test5 r1 r2)) /\
  (forall r1 r2,
     nan_operand [row_get r1 "totalCurrentAssets"; row_get r1 "totalCurrentLiabilities";
                  row_get r2 "totalCurrentAssets"; row_get r2 "totalCurrentLiabilities"] ->
     scores_zero (test6 r1 r2)) /\
  (forall r1 r2,
     nan_operand [row_get r1 "commonStock"; row_get r2 "commonStock"] ->
     scores_zero (test7 r1 r2)) /\
  (forall r1 r2,
     nan_operand [row_get r1 "grossProfit"; row_get r1 "totalRevenue";
                  row_get r2 "grossProfit"; row_get r2 "totalRevenue"] ->
     scores_zero (test8 r1 r2)) /\
  (forall r1 r2 a1 a2,
     nan_operand [row_get r1 "totalRevenue"; row_get r2 "totalRevenue"; a1; a2] ->
     scores_zero (test9 r1 r2 a1 a2)).
Proof.
  split.
  { intros st inc bs cf inc_T inc_T_1 bs_T bs_T_1 bs_T_2 Hi Hb Hc H1 H2 H3 H4 H5 Hin.
    unfold calculate_piotroski_f_score. rewrite Hi, Hb, Hc.
    destruct (f_score_preconditions inc bs cf); [|reflexivity].
    destruct (f_score_body inc bs cf) eqn:E; [|reflexivity].
    exfalso. eapply f_score_body_present; eauto. }
  split.
  { intros inc_T cf_T H. unfold test1, test4. rewrite H. simpl.
    rewrite andb_false_r. split; reflexivity. }
  split.
  { intros inc_T cf_T H. unfold test2, test4. rewrite H. simpl. split; reflexivity. }
  split; [exact test1_nan|]. split; [exact test2_nan|].
  split; [exact test3_nan|]. split; [exact test4_nan|].
  split; [exact test5_nan|]. split; [exact test6_nan|].
  split; [exact test7_nan|]. split; [exact test8_nan|].
  exact test9_nan.
Qed.

Lemma f_score_missing_operands_witness :
  iloc inc_scn (-1) = Ok (inc_full 144 (144 / 10) 62) /\
  In PNone (unconditional_operands (inc_full 144 (144 / 10) 62) (inc_full 120 12 50)
              (drop_field "commonStock" (bs_full 242 100 70 40 10))
              (drop_field "commonStock" (bs_full 220 100 60 40 10))
              (drop_field "commonStock" (bs_full 200 100 50 40 10))) /\
  calculate_piotroski_f_score st_no_cs = (st_no_cs, None).
Proof.
  split; [reflexivity|]. split; [simpl; tauto|].
  apply (proj1 f_score_missing_operands st_no_cs inc_scn bs_no_cs cf_scn
           (inc_full 144 (144 / 10) 62) (inc_full 120 12 50)
           (drop_field "commonStock" (bs_full 242 100 70 40 10))
           (drop_field "commonStock" (bs_full 220 100 60 40 10))
           (drop_field "commonStock" (bs_full 200 100 50 40 10)));
    try reflexivity.
  simpl; tauto.
Defined.

(** C2 (as stated, refuted): a non-numeric P/E ("N/A") does not cost only
    the P/E ratio: every other ratio, from the overview or from the
    statements, is dropped as well. *)
Lemma C2_counterexample :
  dict_get (ratios (calculate_ratios st_pe_na)) "P/B_Ratio" = None /\
  dict_get (ratios (calculate_ratios st_pe_na)) "Net_Profit_Margin" = None /\
  ratios (calculate_ratios st_pe_na) = [].
Proof. split; [|split]; reflexivity. Qed.

(** C2 (amended): the ratios are computed in one guarded block, in the
    order P/E, P/B, P/S, dividend yield, then the statement ratios; a
    missing or non-numeric overview field stops the block there: its ratio
    and every ratio after it are omitted, the ratios before it stay
    recorded. *)
Theorem ratios_bad_overview_field (st : analyzer) (ov : overview) (inc bs : table)
  (Hov : overview_of st = Some ov) (Hinc : income_statement st = Some inc)
  (Hbs : balance_sheet st = Some bs) :
  let pe := py_float (ov_get_d ov "PERatio" "N/A") in
  let pb := py_float (ov_get_d ov "PriceToBookRatio" "N/A") in
  let ps := py_float (ov_get_d ov "PriceToSalesRatioTTM" "N/A") in
  let dy := py_float (ov_get_d ov "DividendYield" "N/A") in
  (forall e, pe = Err e -> ratios (calculate_ratios st) = ratios st) /\
  (forall q1 e, pe = Ok q1 -> pb = Err e ->
     ratios (calculate_ratios st) = dict_set (ratios st) "P/E_Ratio" (RFloat q1)) /\
  (forall q1 q2 e, pe = Ok q1 -> pb = Ok q2 -> ps = Err e ->
     ratios (calculate_ratios st) =
       dict_set (dict_set (ratios st) "P/E_Ratio" (RFloat q1))
         "P/B_Ratio" (RFloat q2)) /\
  (forall q1 q2 q3 e, pe = Ok q1 -> pb = Ok q2 -> ps = Ok q3 -> dy = Err e ->
     ratios (calculate_ratios st) =
       dict_set (dict_set (dict_set (ratios st) "P/E_Ratio" (RFloat q1))
         "P/B_Ratio" (RFloat q2)) "P/S_Ratio" (RFloat q3)).
Proof.
  intros pe pb ps dy. unfold pe, pb, ps, dy.
  unfold calculate_ratios. rewrite Hov, Hinc, Hbs.
  unfold run_try, calculate_ratios_body.
  split; [|split; [|split]].
  - intros e H. cbn -[py_float dict_set iloc]. rewrite H. reflexivity.
  - intros q1 e H1 H2. cbn -[py_float dict_set iloc]. rewrite H1.
    cbn -[py_float dict_set iloc]. rewrite H2. reflexivity.
  - intros q1 q2 e H1 H2 H3. cbn -[py_float dict_set iloc]. rewrite H1.
    cbn -[py_float dict_set iloc]. rewrite H2.
    cbn -[py_float dict_set iloc]. rewrite H3. reflexivity.
  - intros q1 q2 q3 e H1 H2 H3 H4. cbn -[py_float dict_set iloc]. rewrite H1.
    cbn -[py_float dict_set iloc]. rewrite H2.
    cbn -[py_float dict_set iloc]. rewrite H3.
    cbn -[py_float dict_set iloc]. rewrite H4. reflexivity.
Qed.

Lemma ratios_bad_overview_field_witness :
  ratios (calculate_ratios st_pe_na) = [].
Proof.
  apply (proj1 (ratios_bad_overview_field st_pe_na ov_pe_na
                  [inc_row (Fin 100) (Fin 10)] [bs_row1] eq_refl eq_refl eq_refl)
           ValueError).
  reflexivity.
Defined.

(** C5 (as stated, refuted): a present net income of zero with a nonzero
    revenue gives no margin at all, not a margin of 0; and a NaN net income
    is stored as a NaN margin. *)
Lemma C5_counterexample :
  dict_get (ratios (calculate_ratios st_ni0)) "Net_Profit_Margin" = None /\
  dict_get (ratios (calculate_ratios st_ni_nan)) "Net_Profit_Margin" = Some (RFloat NaN).
Proof. split; reflexivity. Qed.

(** The Net_Profit_Margin entry after calculate_ratios, once the overview
    fields parse and the latest rows exist: written when both operands are
    truthy, left as it was otherwise. *)
Lemma net_profit_margin_eq (st : analyzer) (ov : overview) (inc bs : table)
  (li lb : row) (x1 x2 x3 x4 : flt)
  (Hov : overview_of st = Some ov) (Hinc : income_statement st = Some inc)
  (Hbs : balance_sheet st = Some bs)
  (H1 : py_float (ov_get_d ov "PERatio" "N/A") = Ok x1)
  (H2 : py_float (ov_get_d ov "PriceToBookRatio" "N/A") = Ok x2)
  (H3 : py_float (ov_get_d ov "PriceToSalesRatioTTM" "N/A") = Ok x3)
  (H4 : py_float (ov_get_d ov "DividendYield" "N/A") = Ok x4)
  (Hli : iloc inc (-1) = Ok li) (Hlb : iloc bs (-1) = Ok lb) :
  dict_get (ratios (calculate_ratios st)) "Net_Profit_Margin" =
    if truthy (row_get li "netIncome") && truthy (row_get li "totalRevenue")
    then Some (margin_value (row_get li "netIncome") (row_get li "totalRevenue"))
    else dict_get (ratios st) "Net_Profit_Margin".
Proof.
  unfold calculate_ratios. rewrite Hov, Hinc, Hbs.
  rewrite ratios_run_try. unfold calculate_ratios_body.
  rewrite (se_bind_lift_ok _ _ _ _ H1), se_bind_set.
  rewrite (se_bind_lift_ok _ _ _ _ H2), se_bind_set.
  rewrite (se_bind_lift_ok _ _ _ _ H3), se_bind_set.
  rewrite (se_bind_lift_ok _ _ _ _ H4), se_bind_set.
  rewrite (se_bind_lift_ok _ _ _ _ Hli), (se_bind_lift_ok _ _ _ _ Hlb).
  cbv beta zeta.
  rewrite get_bind_preserves by (intro; solve_preserves).
  destruct (truthy (row_get li "netIncome") && truthy (row_get li "totalRevenue")) eqn:Et.
  - apply andb_true_iff in Et. destruct Et as [Ea Eb].
    destruct (py_div_truthy _ _ Ea Eb) as [v [Ev Evv]].
    rewrite (se_bind_lift_ok _ _ _ _ Ev). simpl fst.
    rewrite dict_get_set. simpl. rewrite Evv. reflexivity.
  - simpl fst. rewrite !dict_get_set. reflexivity.
Qed.

(** C5 (amended): once the four overview fields parse and both latest rows
    exist, for a net income and a total revenue that are finite numbers,
    Net_Profit_Margin is written with value net income / revenue when both
    are nonzero; when either is zero or absent the metric is omitted (left
    as it was), with no error and no infinity.  So a zero net income with a
    nonzero revenue omits the margin instead of giving 0, and a zero
    revenue omits it. *)
Theorem net_profit_margin_guard (st : analyzer) (ov : overview) (inc bs : table)
  (li lb : row) (x1 x2 x3 x4 : flt)
  (Hov : overview_of st = Some ov) (Hinc : income_statement st = Some inc)
  (Hbs : balance_sheet st = Some bs)
  (H1 : py_float (ov_get_d ov "PERatio" "N/A") = Ok x1)
  (H2 : py_float (ov_get_d ov "PriceToBookRatio" "N/A") = Ok x2)
  (H3 : py_float (ov_get_d ov "PriceToSalesRatioTTM" "N/A") = Ok x3)
  (H4 : py_float (ov_get_d ov "DividendYield" "N/A") = Ok x4)
  (Hli : iloc inc (-1) = Ok li) (Hlb : iloc bs (-1) = Ok lb) :
  (forall a b, row_get li "netIncome" = num a -> row_get li "totalRevenue" = num b ->
     ~ (a == 0)%Q -> ~ (b == 0)%Q ->
     dict_get (ratios (calculate_ratios st)) "Net_Profit_Margin" =
       Some (RFloat (Fin (a / b)))) /\
  ((row_get li "netIncome" = PNone \/ row_get li "totalRevenue" = PNone \/
    (exists a, row_get li "netIncome" = num a /\ (a == 0)%Q) \/
    (exists b, row_get li "totalRevenue" = num b /\ (b == 0)%Q)) ->
     dict_get (ratios (calculate_ratios st)) "Net_Profit_Margin" =
       dict_get (ratios st) "Net_Profit_Margin").
Proof.
  rewrite (net_profit_margin_eq st ov inc bs li lb x1 x2 x3 x4 Hov Hinc Hbs H1 H2 H3 H4 Hli Hlb).
  split.
  - intros a b Ha Hb Ha0 Hb0. rewrite Ha, Hb. unfold truthy, num, margin_value, flt_div.
    destruct (Qeq_bool a 0) eqn:Ea; [apply Qeq_bool_iff in Ea; contradiction|].
    destruct (Qeq_bool b 0) eqn:Eb; [apply Qeq_bool_iff in Eb; contradiction|].
    reflexivity.
  - intros [Ha | [Hb | [[a [Ha Ha0]] | [b [Hb Hb0]]]]].
    + rewrite Ha. reflexivity.
    + rewrite Hb, andb_false_r. reflexivity.
    + rewrite Ha. unfold truthy, num. apply Qeq_bool_iff in Ha0. rewrite Ha0. reflexivity.
    + rewrite Hb. unfold truthy, num. apply Qeq_bool_iff in Hb0. rewrite Hb0.
      rewrite andb_false_r. reflexivity.
Qed.

Lemma net_profit_margin_guard_witness :
  dict_get (ratios (calculate_ratios st_ni0)) "Net_Profit_Margin" = None /\
  dict_get (ratios (calculate_ratios st_ratios)) "Net_Profit_Margin" =
    Some (RFloat (Fin (10 / 100))).
Proof.
  split.
  - rewrite (proj2 (net_profit_margin_guard st_ni0 ov_sample [inc_row (Fin 100) (Fin 0)]
                      [bs_row1] (inc_row (Fin 100) (Fin 0)) bs_row1
                      (Fin (Qmake 285 10)) (Fin (Qmake 401 10)) (Fin (Qmake 72 10))
                      (Fin (Qmake 44 10000)) eq_refl eq_refl eq_refl eq_refl eq_refl
                      eq_refl eq_refl eq_refl eq_refl)).
    + reflexivity.
    + right. right. left. exists 0%Q. split; [reflexivity | apply Qeq_refl].
  - apply (proj1 (net_profit_margin_guard st_ratios ov_sample [inc_row (Fin 100) (Fin 10)]
                    [bs_row1] (inc_row (Fin 100) (Fin 10)) bs_row1
                    (Fin (Qmake 285 10)) (Fin (Qmake 401 10)) (Fin (Qmake 72 10))
                    (Fin (Qmake 44 10000)) eq_refl eq_refl eq_refl eq_refl eq_refl
                    eq_refl eq_refl eq_refl eq_refl));
      try reflexivity; discriminate.
Defined.

(** C6 (as stated, refuted): with shares outstanding missing, the DCF
    reports nothing at all, although with the same statements and a share
    count it reports an enterprise value. *)
Lemma C6_counterexample :
  run_simple_dcf st_dcf_no_shares (5 # 100) (10 # 100) (2 # 100) = None /\
  run_simple_dcf st_dcf (5 # 100) (10 # 100) (2 # 100) <> None.
Proof. split; [reflexivity | vm_compute; discriminate]. Qed.

(** C6 (amended): when shares outstanding is missing, unparseable as an
    integer, or zero, the DCF output is unavailable as a whole: no implied
    share price, no equity value, no enterprise value. *)
Theorem dcf_without_shares_unavailable (st : analyzer) (ov : overview) (g w tg : Q)
  (Hov : overview_of st = Some ov)
  (Hsh : ov_get ov "SharesOutstanding" = None \/
         exists s, ov_get ov "SharesOutstanding" = Some s /\
                   (py_int s = Ok 0%Z \/ exists e, py_int s = Err e)) :
  run_simple_dcf st g w tg = None.
Proof.
  unfold run_simple_dcf. rewrite Hov.
  destruct (cash_flow st) as [cf|], (balance_sheet st) as [bs|]; try reflexivity.
  destruct (run_simple_dcf_body cf bs ov g w tg) as [[r|]|e] eqn:E; try reflexivity.
  apply dcf_body_some_shares in E. destruct E as [s [n [Hs [Hn Hn0]]]].
  destruct Hsh as [Hsh | [s' [Hs' [Hz | [e He]]]]]; rewrite Hs in *; [discriminate|..];
    injection Hs' as <-; rewrite Hn in *; [injection Hz as ->; contradiction | discriminate].
Qed.

Lemma dcf_without_shares_unavailable_witness :
  run_simple_dcf st_dcf_no_shares (5 # 100) (10 # 100) (2 # 100) = None.
Proof.
  apply (dcf_without_shares_unavailable st_dcf_no_shares ov_no_shares); [reflexivity|].
  left. reflexivity.
Defined.

(** C1 (as stated, refuted): with a discount rate below the terminal
    growth rate the DCF is not reported unavailable; it returns a result
    whose enterprise value is a finite (here negative) number. *)
Lemma C1_counterexample :
  (1 # 100 <= 2 # 100)%Q /\
  exists r q, run_simple_dcf st_dcf 0 (1 # 100) (2 # 100) = Some r /\
              enterprise_value r = num q /\ (q < 0)%Q.
Proof.
  split; [discriminate|].
  do 2 eexists. split; [reflexivity|]. split; [reflexivity|]. reflexivity.
Qed.

(** C1 (amended): run_simple_dcf applies no guard relating the discount
    rate and the terminal growth rate.  With the cash-flow inputs present
    and finite, 1 + discount_rate nonzero and a nonzero integer share count,
    a discount rate below the terminal growth rate still yields a result,
    whose enterprise value is the finite number
    sum_{i=1..5} FCF_i / (1+dr)^i + (FCF_5 (1+tg) / (dr - tg)) / (1+dr)^5,
    not an unavailable result. *)
Theorem dcf_no_rate_guard (st : analyzer) (cf bs : table) (ov : overview) (lcf lb : row)
  (op capex g w tg : Q) (s : string) (n : Z)
  (Hcf : cash_flow st = Some cf) (Hbs : balance_sheet st = Some bs)
  (Hov : overview_of st = Some ov)
  (Hlcf : iloc cf (-1) = Ok lcf) (Hlb : iloc bs (-1) = Ok lb)
  (Hop : row_get lcf "operatingCashflow" = num op)
  (Hcx : row_get lcf "capitalExpenditures" = num capex)
  (Hs : ov_get ov "SharesOutstanding" = Some s) (Hn : py_int s = Ok n) (Hn0 : n <> 0%Z)
  (Hw : ~ (1 + w == 0)%Q) (Hlt : (w < tg)%Q) :
  exists r q, run_simple_dcf st g w tg = Some r /\ enterprise_value r = num q /\
              (q == dcf_enterprise_value (op - Qabs capex) g w tg)%Q.
Proof.
  unfold run_simple_dcf. rewrite Hcf, Hbs, Hov. unfold run_simple_dcf_body.
  rewrite Hlcf. cbn [res_bind]. rewrite Hop, Hcx.
  cbn [num res_bind py_abs py_sub py_arith flt_abs flt_sub].
  fold_num. rewrite project_fcf_num. cbn [res_bind]. rewrite iloc_last5.
  cbn [res_bind py_mul py_arith num flt_mul]. fold_num.
  rewrite py_div_num by (intro E; lra). cbn [res_bind].
  rewrite discount_from_5 by exact Hw. cbn [res_bind].
  rewrite py_div_num by (apply Qpower_not_0; exact Hw).
  cbn [res_bind py_sum fold_left py_add py_arith num flt_add].
  rewrite Hlb. cbn [res_bind].
  destruct (row_get_d_pnum lb "longTermDebt") as [x1 E1].
  destruct (row_get_d_pnum lb "shortTermDebt") as [x2 E2].
  destruct (row_get_d_pnum lb "cashAndCashEquivalentsAtCarryingValue") as [x3 E3].
  rewrite E1, E2. destruct (py_add_pnum x1 x2) as [z1 Ez1]. rewrite Ez1. cbn [res_bind].
  rewrite E3. destruct (py_sub_pnum z1 x3) as [z2 Ez2]. rewrite Ez2. cbn [res_bind].
  fold_num.
  match goal with
  | |- context [py_sub (num ?a) (PNum z2)] =>
      destruct (py_sub_pnum (Fin a) z2) as [z3 Ez3]; unfold num at 1; rewrite Ez3
  end.
  cbn [res_bind]. rewrite Hs. cbn [res_bind]. rewrite Hn. cbn [res_bind].
  rewrite (proj2 (Z.eqb_neq n 0) Hn0).
  destruct (py_div_pnum_num z3 (inject_Z n)) as [v Ev].
  { intro E. apply Hn0. apply inject_Z_injective. exact E. }
  rewrite Ev. cbn [res_bind].
  do 2 eexists. split; [reflexivity|]. split; [reflexivity|].
  unfold dcf_enterprise_value. ring.
Qed.

Lemma dcf_no_rate_guard_witness :
  exists r q, run_simple_dcf st_dcf 0 (1 # 100) (2 # 100) = Some r /\
              enterprise_value r = num q /\
              (q == dcf_enterprise_value (120 - Qabs (-20)) 0 (1 # 100) (2 # 100))%Q.
Proof.
  apply (dcf_no_rate_guard st_dcf cf_dcf bs_dcf ov_sample
           cf_dcf_row bs_dcf_row
           120 (-20) 0 (1 # 100) (2 # 100) "1000" 1000);
    try reflexivity.
  - discriminate.
  - intro E. vm_compute in E. discriminate E.
Defined.

(** C7: CAGR round trip over exact real arithmetic.  For every start > 0,
    integer periods > 0 and growth rate g with 1 + g > 0, taking
    end = start * (1 + g) ^ periods makes `_calculate_cagr(start, end,
    periods)` return exactly g. *)
Theorem cagr_round_trip (start g : R) (periods : Z)
  (Hs : (0 < start)%R) (Hp : (0 < periods)%Z) (Hg : (0 < 1 + g)%R) :
  calculate_cagr_R (Some start) (Some (start * (1 + g) ^ Z.to_nat periods)%R) periods = Some g.
Proof.
  unfold calculate_cagr_R.
  destruct (Rle_dec start 0) as [Hle|_]; [Lra.lra|].
  replace (periods =? 0)%Z with false by (symmetry; apply Z.eqb_neq; lia).
  f_equal.
  replace (start * (1 + g) ^ Z.to_nat periods / start)%R
    with ((1 + g) ^ Z.to_nat periods)%R by (field; Lra.lra).
  rewrite <- Rpower_pow by Lra.lra.
  rewrite Rpower_mult, INR_IZR_INZ, Z2Nat.id by lia.
  replace (IZR periods * (1 / IZR periods))%R with 1%R
    by (field; apply not_0_IZR; lia).
  rewrite Rpower_1 by Lra.lra. ring.
Qed.

Lemma cagr_round_trip_witness :
  calculate_cagr_R (Some 1%R) (Some (1 * (1 + 1) ^ Z.to_nat 2)%R) 2 = Some 1%R.
Proof. apply (cagr_round_trip 1 1 2); [Lra.lra | reflexivity | Lra.lra]. Defined.

(** C8: calculate_historical_growth uses the effective window
    w = min(years, rows - 1).  With fewer than 2 rows, or when w is 0, the
    analyzer is returned unchanged: no growth metric is computed and nothing
    is raised.  Otherwise (years > 0) the CAGRs are taken between row
    rows - 1 - w (iloc[-1 - w]) and the last row over w periods, and stored
    under the keys for w. *)
Theorem growth_effective_window (fpow : flt -> Q -> res flt) (st : analyzer)
  (inc : table) (y : Z) (Hinc : income_statement st = Some inc) :
  (((length inc < 2)%nat \/ effective_window inc y = 0%Z) ->
   calculate_historical_growth fpow st y = st) /\
  ((2 <= length inc)%nat -> (0 < y)%Z ->
   forall w, w = Z.min y (Z.of_nat (length inc) - 1) ->
   forall v1,
   calculate_cagr fpow
     (row_get (nth (Z.to_nat (Z.of_nat (length inc) - 1 - w)) inc []) "totalRevenue")
     (row_get (nth (length inc - 1) inc []) "totalRevenue") w = Ok v1 ->
   dict_get (ratios (calculate_historical_growth fpow st y)) (rev_key w) = Some v1 /\
   (forall v2,
    calculate_cagr fpow
      (row_get (nth (Z.to_nat (Z.of_nat (length inc) - 1 - w)) inc []) "netIncome")
      (row_get (nth (length inc - 1) inc []) "netIncome") w = Ok v2 ->
    dict_get (ratios (calculate_historical_growth fpow st y)) (ni_key w) = Some v2)).
Proof.
  split.
  - intros [H|H]; unfold calculate_historical_growth; rewrite Hinc.
    + replace (length inc <? 2)%nat with true by (symmetry; apply Nat.ltb_lt; exact H).
      reflexivity.
    + destruct (length inc <? 2)%nat; [reflexivity|]. rewrite H. reflexivity.
  - intros Hn Hy w Hw v1 Hrev.
    assert (Hw1 : (1 <= w <= Z.of_nat (length inc) - 1)%Z) by lia.
    assert (Hstart : iloc inc (-1 - w)
                     = Ok (nth (Z.to_nat (Z.of_nat (length inc) - 1 - w)) inc [])).
    { replace (-1 - w)%Z with (- (1 + w))%Z by lia.
      rewrite (iloc_neg inc (1 + w) []) by lia.
      do 3 f_equal. lia. }
    assert (Hend : iloc inc (-1) = Ok (nth (length inc - 1) inc [])).
    { replace (length inc - 1)%nat with (Z.to_nat (Z.of_nat (length inc) - 1)) by lia.
      exact (iloc_neg inc 1 [] ltac:(lia)). }
    unfold calculate_historical_growth. rewrite Hinc.
    replace (length inc <? 2)%nat with false by (symmetry; apply Nat.ltb_ge; exact Hn).
    unfold effective_window. rewrite <- Hw.
    replace (w =? 0)%Z with false by (symmetry; apply Z.eqb_neq; lia).
    rewrite ratios_run_try. unfold calculate_historical_growth_body.
    rewrite (se_bind_lift_ok _ _ _ _ Hstart), (se_bind_lift_ok _ _ _ _ Hend),
      (se_bind_lift_ok _ _ _ _ Hrev), se_bind_set.
    split.
    + rewrite get_bind_preserves.
      * simpl. rewrite dict_get_set, String.eqb_refl. reflexivity.
      * intro. apply preserves_set. apply rev_ni_key_neq.
    + intros v2 Hni. rewrite (se_bind_lift_ok _ _ _ _ Hni). simpl.
      rewrite dict_get_set, String.eqb_refl. reflexivity.
Qed.

Lemma growth_effective_window_witness :
  calculate_historical_growth pow_example st_inc_one 5 = st_inc_one.
Proof.
  apply (growth_effective_window pow_example st_inc_one inc_one 5 eq_refl).
  left. simpl. lia.
Defined.

(** C10: the growth results are stored under keys that embed the effective
    window w = min(years, rows - 1): every key other than
    "Revenue_CAGR_{w}Y" and "Net_Income_CAGR_{w}Y" is left unchanged.  When
    rows - 1 < years, a key "Revenue_CAGR_{years}Y" absent before is still
    absent; in particular, in the main script with fewer than 6 income
    statement rows, the lookup of "Revenue_CAGR_5Y" finds nothing and the
    fallback growth rate 0.08 is used. *)
Theorem growth_keys_embed_window (fpow : flt -> Q -> res flt) (st : analyzer)
  (inc : table) (y : Z) (Hinc : income_statement st = Some inc) :
  (forall k, k <> rev_key (Z.min y (Z.of_nat (length inc) - 1)) ->
   k <> ni_key (Z.min y (Z.of_nat (length inc) - 1)) ->
   dict_get (ratios (calculate_historical_growth fpow st y)) k = dict_get (ratios st) k) /\
  ((Z.of_nat (length inc) - 1 < y)%Z -> dict_get (ratios st) (rev_key y) = None ->
   dict_get (ratios (calculate_historical_growth fpow st y)) (rev_key y) = None) /\
  (forall ov bs cf, (length inc < 6)%nat ->
   dict_get (ratios (fst (main_models fpow ov (Some inc) bs cf))) "Revenue_CAGR_5Y" = None /\
   main_growth_rate fpow ov (Some inc) bs cf = Fin (8 # 100)).
Proof.
  split; [|split].
  - intros k H1 H2. apply growth_preserves. intros inc' E.
    rewrite Hinc in E. injection E as <-. unfold effective_window.
    split; apply String.eqb_neq; assumption.
  - intros Hlt Habs. rewrite growth_preserves; [exact Habs|].
    intros inc' E. rewrite Hinc in E. injection E as <-. unfold effective_window.
    split; [|apply rev_ni_key_neq].
    apply String.eqb_neq. intros E. apply rev_key_inj in E. lia.
  - intros ov bs cf H6.
    assert (Hget : dict_get (ratios (fst (main_models fpow ov (Some inc) bs cf)))
                     "Revenue_CAGR_5Y" = None).
    { unfold main_models. rewrite capm_keep_rev5, growth_preserves.
      - rewrite f_score_keep_rev5, ratios_keep_rev5. reflexivity.
      - intros inc' E. rewrite f_score_income, ratios_income in E.
        simpl in E. injection E as <-. unfold effective_window.
        rewrite <- rev_key_5. split; [|apply rev_ni_key_neq].
        apply String.eqb_neq. intros E. apply rev_key_inj in E. lia. }
    split; [exact Hget|].
    unfold main_growth_rate. rewrite Hget. reflexivity.
Qed.

Lemma growth_keys_embed_window_witness :
  dict_get (ratios (calculate_historical_growth pow_example st_inc_two 5)) (rev_key 5) = None.
Proof.
  apply (growth_keys_embed_window pow_example st_inc_two inc_two 5 eq_refl);
    [simpl; lia | reflexivity].
Defined.

(* ================================================================== *)
(** * Further properties of the code *)

Lemma Qabs_opp_eq (c : Q) : Qabs (- c) = Qabs c.
Proof. destruct c as [n d]. unfold Qabs, Qopp. simpl. rewrite Z.abs_opp. reflexivity. Qed.

Lemma ratios_overview st : overview_of (calculate_ratios st) = overview_of st.
Proof.
  unfold calculate_ratios, run_try.
  destruct (overview_of st) eqn:E, (income_statement st), (balance_sheet st);
    try exact E; try reflexivity.
  destruct (calculate_ratios_body _ _ _ _). exact E.
Qed.

Lemma f_score_overview st :
  overview_of (fst (calculate_piotroski_f_score st)) = overview_of st.
Proof.
  unfold calculate_piotroski_f_score.
  destruct (income_statement st), (balance_sheet st), (cash_flow st); try reflexivity.
  destruct (f_score_preconditions _ _ _); [|reflexivity].
  destruct (f_score_body _ _ _); reflexivity.
Qed.

Lemma growth_overview fpow st y :
  overview_of (calculate_historical_growth fpow st y) = overview_of st.
Proof.
  unfold calculate_historical_growth.
  destruct (income_statement st); [|reflexivity].
  destruct (length t <? 2)%nat; [reflexivity|].
  destruct (effective_window t y =? 0)%Z; [reflexivity|].
  unfold run_try. destruct (calculate_historical_growth_body _ _ _ _). reflexivity.
Qed.

Lemma capm_overview st r m :
  overview_of (fst (calculate_cost_of_equity_capm st r m)) = overview_of st.
Proof.
  unfold calculate_cost_of_equity_capm.
  destruct (overview_of st) eqn:E; [|exact E].
  destruct (ov_get _ "Beta"); [|exact E].
  destruct (String.eqb _ "N/A"); [exact E|].
  destruct (py_float _); exact E.
Qed.

Lemma main_models_overview fpow ov inc bs cf :
  overview_of (fst (main_models fpow ov inc bs cf)) = ov.
Proof.
  unfold main_models.
  rewrite capm_overview, growth_overview, f_score_overview, ratios_overview. reflexivity.
Qed.

Lemma main_models_capm fpow ov inc bs cf :
  snd (main_models fpow ov inc bs cf) =
  snd (calculate_cost_of_equity_capm (init_analyzer "AAPL" ov inc bs cf)
         RISK_FREE_RATE EXPECTED_MARKET_RETURN).
Proof.
  unfold main_models, calculate_cost_of_equity_capm.
  rewrite growth_overview, f_score_overview, ratios_overview.
  cbn [overview_of init_analyzer]. destruct ov as [o|]; [|reflexivity].
  destruct (ov_get o "Beta"); [|reflexivity].
  destruct (String.eqb _ _); [reflexivity|].
  destruct (py_float _); reflexivity.
Qed.

Lemma se_bind_ret {A B} (a : A) (f : A -> SE B) d : se_bind (se_ret a) f d = f a d.
Proof. reflexivity. Qed.

(** The shape of the guarded ratio steps of calculate_ratios. *)
Lemma guarded_ratio_step {B} k (a b : pyval) (f : unit -> SE B) d :
  se_bind (if truthy a && truthy b
           then slet v := se_lift (py_div a b) in se_set k (of_pyval v)
           else se_ret tt) f d =
  f tt (if truthy a && truthy b then dict_set d k (margin_value a b) else d).
Proof.
  destruct (truthy a && truthy b) eqn:Et; [|reflexivity].
  apply andb_true_iff in Et. destruct Et as [Ea Eb].
  destruct (py_div_truthy _ _ Ea Eb) as [v [Ev Evv]].
  unfold se_bind at 1. rewrite (se_bind_lift_ok _ _ _ _ Ev). simpl. rewrite Evv. reflexivity.
Qed.

Lemma guarded_ratio_last k (a b : pyval) d :
  fst ((if truthy a && truthy b
        then slet v := se_lift (py_div a b) in se_set k (of_pyval v)
        else se_ret tt) d) =
  (if truthy a && truthy b then dict_set d k (margin_value a b) else d).
Proof.
  destruct (truthy a && truthy b) eqn:Et; [|reflexivity].
  apply andb_true_iff in Et. destruct Et as [Ea Eb].
  destruct (py_div_truthy _ _ Ea Eb) as [v [Ev Evv]].
  rewrite (se_bind_lift_ok _ _ _ _ Ev). simpl. rewrite Evv. reflexivity.
Qed.

(** The revenue CAGR recorded by calculate_historical_growth. *)
Lemma growth_rev_value fpow st inc y w v :
  income_statement st = Some inc -> (2 <= length inc)%nat -> (0 < y)%Z ->
  w = Z.min y (Z.of_nat (length inc) - 1) ->
  calculate_cagr fpow
    (row_get (nth (Z.to_nat (Z.of_nat (length inc) - 1 - w)) inc []) "totalRevenue")
    (row_get (nth (length inc - 1) inc []) "totalRevenue") w = Ok v ->
  dict_get (ratios (calculate_historical_growth fpow st y)) (rev_key w) = Some v.
Proof.
  intros Hinc Hn Hy Hw Hrev.
  assert (Hstart : iloc inc (-1 - w)
                   = Ok (nth (Z.to_nat (Z.of_nat (length inc) - 1 - w)) inc [])).
  { replace (-1 - w)%Z with (- (1 + w))%Z by lia.
    rewrite (iloc_neg inc (1 + w) []) by lia.
    do 3 f_equal. lia. }
  assert (Hend : iloc inc (-1) = Ok (nth (length inc - 1) inc [])).
  { replace (length inc - 1)%nat with (Z.to_nat (Z.of_nat (length inc) - 1)) by lia.
    exact (iloc_neg inc 1 [] ltac:(lia)). }
  unfold calculate_historical_growth. rewrite Hinc.
  replace (length inc <? 2)%nat with false by (symmetry; apply Nat.ltb_ge; exact Hn).
  unfold effective_window. rewrite <- Hw.
  replace (w =? 0)%Z with false by (symmetry; apply Z.eqb_neq; lia).
  rewrite ratios_run_try. unfold calculate_historical_growth_body.
  rewrite (se_bind_lift_ok _ _ _ _ Hstart), (se_bind_lift_ok _ _ _ _ Hend),
    (se_bind_lift_ok _ _ _ _ Hrev), se_bind_set.
  rewrite get_bind_preserves.
  - simpl. rewrite dict_get_set, String.eqb_refl. reflexivity.
  - intro. apply preserves_set. apply rev_ni_key_neq.
Qed.

(** In the script, with at least 6 income-statement rows, Revenue_CAGR_5Y
    holds the CAGR from row n-6 to the last row over 5 periods. *)
Lemma main_rev5 fpow ov inc bs cf v :
  (6 <= length inc)%nat ->
  calculate_cagr fpow (row_get (nth (length inc - 6) inc []) "totalRevenue")
    (row_get (nth (length inc - 1) inc []) "totalRevenue") 5 = Ok v ->
  dict_get (ratios (fst (main_models fpow ov (Some inc) bs cf))) "Revenue_CAGR_5Y" = Some v.
Proof.
  intros H6 Hv. unfold main_models. rewrite capm_keep_rev5, <- rev_key_5.
  apply (growth_rev_value fpow _ inc 5 5 v).
  - rewrite f_score_income, ratios_income. reflexivity.
  - unfold row in *. lia.
  - lia.
  - unfold row in *. lia.
  - unfold row in *.
    replace (Z.to_nat (Z.of_nat (length inc) - 1 - 5)) with (length inc - 6)%nat by lia.
    exact Hv.
Qed.

(** calculate_cost_of_equity_capm, on an overview whose Beta parses as a
    number: it returns Rf + beta * (Rm - Rf), records that value under
    "Cost_of_Equity (CAPM)" and leaves every other metric as it was. *)
Theorem capm_records_cost (st : analyzer) (ov : overview) (b : string) (beta rf rm : Q)
  (Hov : overview_of st = Some ov) (Hb : ov_get ov "Beta" = Some b) (Hna : b <> "N/A")
  (Hp : py_float b = Ok (Fin beta)) :
  snd (calculate_cost_of_equity_capm st rf rm) = Some (Fin (rf + beta * (rm - rf))) /\
  dict_get (ratios (fst (calculate_cost_of_equity_capm st rf rm))) "Cost_of_Equity (CAPM)"
    = Some (RFloat (Fin (rf + beta * (rm - rf)))) /\
  (forall k, k <> "Cost_of_Equity (CAPM)" ->
     dict_get (ratios (fst (calculate_cost_of_equity_capm st rf rm))) k
     = dict_get (ratios st) k).
Proof.
  unfold calculate_cost_of_equity_capm. rewrite Hov, Hb.
  replace (String.eqb b "N/A") with false by (symmetry; apply String.eqb_neq; exact Hna).
  rewrite Hp. simpl.
  split; [reflexivity|]. split.
  - rewrite dict_get_set, String.eqb_refl. reflexivity.
  - intros k Hk. rewrite dict_get_set. apply String.eqb_neq in Hk. rewrite Hk. reflexivity.
Qed.

Lemma capm_records_cost_witness :
  snd (calculate_cost_of_equity_capm st_dcf_no_shares RISK_FREE_RATE EXPECTED_MARKET_RETURN)
  = Some (Fin (RISK_FREE_RATE + Qmake 12 10 * (EXPECTED_MARKET_RETURN - RISK_FREE_RATE))).
Proof.
  apply (capm_records_cost st_dcf_no_shares ov_no_shares "1.2" (Qmake 12 10)
           RISK_FREE_RATE EXPECTED_MARKET_RETURN); try reflexivity.
  discriminate.
Defined.

(** calculate_cost_of_equity_capm reports no cost of equity, and changes
    nothing, without an overview or when Beta is absent, "N/A", or one of
    the provider's non-numeric placeholders "None" and "". *)
Theorem capm_unavailable (st : analyzer) (rf rm : Q) :
  (overview_of st = None \/
   exists ov, overview_of st = Some ov /\
     (ov_get ov "Beta" = None \/ ov_get ov "Beta" = Some "N/A" \/
      ov_get ov "Beta" = Some "None" \/ ov_get ov "Beta" = Some "")) ->
  calculate_cost_of_equity_capm st rf rm = (st, None).
Proof.
  unfold calculate_cost_of_equity_capm.
  intros [H|[ov [H [Hb|[Hb|[Hb|Hb]]]]]]; rewrite H; [reflexivity|..];
    rewrite Hb; reflexivity.
Qed.

Lemma capm_unavailable_witness :
  calculate_cost_of_equity_capm st_inc_one RISK_FREE_RATE EXPECTED_MARKET_RETURN
  = (st_inc_one, None).
Proof. apply capm_unavailable. left. reflexivity. Defined.

Lemma cagr_none (fpow : flt -> Q -> res flt) (s e : pyval) (p : Z) :
  (s = PNone \/ e = PNone \/
   (e <> PNone /\ exists q, s = num q /\ (q <= 0)%Q) \/
   (e <> PNone /\ s <> PNone /\ p = 0%Z)) ->
  calculate_cagr fpow s e p = Ok RNone.
Proof.
  unfold calculate_cagr.
  intros [->|[->|[[He [q [-> Hq]]]|[He [Hs ->]]]]].
  - reflexivity.
  - destruct s; reflexivity.
  - destruct e as [|x]; [contradiction|].
    apply Qle_bool_iff in Hq. simpl. rewrite Hq. reflexivity.
  - destruct s as [|x]; [contradiction|]. destruct e as [|y]; [contradiction|].
    unfold py_le. cbn [res_bind]. destruct (py_cmp_pnum Qle_bool Z.leb x (Fin 0)) as [c Hc].
    unfold zero, num. rewrite Hc. cbn [res_bind]. rewrite orb_true_r. reflexivity.
Qed.

(** calculate_ratios: once the four overview fields parse, P/E, P/B, P/S
    and the dividend yield are recorded with the parsed values, even when
    the statement ratios computed after them fail (for instance on an
    empty statement table). *)
Theorem ratios_valuation_recorded (st : analyzer) (ov : overview) (inc bs : table)
  (q1 q2 q3 q4 : flt)
  (Hov : overview_of st = Some ov) (Hinc : income_statement st = Some inc)
  (Hbs : balance_sheet st = Some bs)
  (H1 : py_float (ov_get_d ov "PERatio" "N/A") = Ok q1)
  (H2 : py_float (ov_get_d ov "PriceToBookRatio" "N/A") = Ok q2)
  (H3 : py_float (ov_get_d ov "PriceToSalesRatioTTM" "N/A") = Ok q3)
  (H4 : py_float (ov_get_d ov "DividendYield" "N/A") = Ok q4) :
  dict_get (ratios (calculate_ratios st)) "P/E_Ratio" = Some (RFloat q1) /\
  dict_get (ratios (calculate_ratios st)) "P/B_Ratio" = Some (RFloat q2) /\
  dict_get (ratios (calculate_ratios st)) "P/S_Ratio" = Some (RFloat q3) /\
  dict_get (ratios (calculate_ratios st)) "Dividend_Yield" = Some (RFloat q4).
Proof.
  unfold calculate_ratios. rewrite Hov, Hinc, Hbs.
  rewrite ratios_run_try. unfold calculate_ratios_body.
  rewrite (se_bind_lift_ok _ _ _ _ H1), se_bind_set.
  rewrite (se_bind_lift_ok _ _ _ _ H2), se_bind_set.
  rewrite (se_bind_lift_ok _ _ _ _ H3), se_bind_set.
  rewrite (se_bind_lift_ok _ _ _ _ H4), se_bind_set.
  rewrite get_bind_preserves by (intro; solve_preserves).
  rewrite get_bind_preserves by (intro; solve_preserves).
  rewrite get_bind_preserves by (intro; solve_preserves).
  rewrite get_bind_preserves by (intro; solve_preserves).
  simpl fst. rewrite !dict_get_set. repeat split; reflexivity.
Qed.

Lemma ratios_valuation_recorded_witness :
  dict_get (ratios (calculate_ratios st_ni0)) "P/E_Ratio" = Some (RFloat (Fin (Qmake 285 10))).
Proof.
  apply (ratios_valuation_recorded st_ni0 ov_sample [inc_row (Fin 100) (Fin 0)] [bs_row1]
           (Fin (Qmake 285 10)) (Fin (Qmake 401 10)) (Fin (Qmake 72 10))
           (Fin (Qmake 44 10000)));
    reflexivity.
Defined.

(** calculate_ratios, return on equity and debt to equity: once the four
    overview fields parse and both latest rows exist, ROE is written
    exactly when net income and shareholder equity are both present and
    truthy (nonzero, NaN counting as truthy), with value net income /
    equity; Debt_to_Equity is written exactly when total debt
    (longTermDebt + shortTermDebt, an absent column counting as 0) and
    equity are truthy, with value total debt / equity.  In particular a
    balance sheet with neither debt column records no debt-to-equity
    ratio, not a ratio of 0. *)
Theorem ratios_roe_de (st : analyzer) (ov : overview) (inc bs : table)
  (li lb : row) (q1 q2 q3 q4 : flt) (td : pyval)
  (Hov : overview_of st = Some ov) (Hinc : income_statement st = Some inc)
  (Hbs : balance_sheet st = Some bs)
  (H1 : py_float (ov_get_d ov "PERatio" "N/A") = Ok q1)
  (H2 : py_float (ov_get_d ov "PriceToBookRatio" "N/A") = Ok q2)
  (H3 : py_float (ov_get_d ov "PriceToSalesRatioTTM" "N/A") = Ok q3)
  (H4 : py_float (ov_get_d ov "DividendYield" "N/A") = Ok q4)
  (Hli : iloc inc (-1) = Ok li) (Hlb : iloc bs (-1) = Ok lb)
  (Htd : py_add (row_get_d lb "longTermDebt" (num 0))
                (row_get_d lb "shortTermDebt" (num 0)) = Ok td) :
  dict_get (ratios (calculate_ratios st)) "Return_on_Equity (ROE)" =
    (if truthy (row_get li "netIncome") && truthy (row_get lb "totalShareholderEquity")
     then Some (margin_value (row_get li "netIncome") (row_get lb "totalShareholderEquity"))
     else dict_get (ratios st) "Return_on_Equity (ROE)") /\
  dict_get (ratios (calculate_ratios st)) "Debt_to_Equity" =
    (if truthy td && truthy (row_get lb "totalShareholderEquity")
     then Some (margin_value td (row_get lb "totalShareholderEquity"))
     else dict_get (ratios st) "Debt_to_Equity") /\
  (assoc "longTermDebt" lb = None -> assoc "shortTermDebt" lb = None ->
   dict_get (ratios (calculate_ratios st)) "Debt_to_Equity"
   = dict_get (ratios st) "Debt_to_Equity").
Proof.
  assert (Hmain :
    dict_get (ratios (calculate_ratios st)) "Return_on_Equity (ROE)" =
      (if truthy (row_get li "netIncome") && truthy (row_get lb "totalShareholderEquity")
       then Some (margin_value (row_get li "netIncome") (row_get lb "totalShareholderEquity"))
       else dict_get (ratios st) "Return_on_Equity (ROE)") /\
    dict_get (ratios (calculate_ratios st)) "Debt_to_Equity" =
      (if truthy td && truthy (row_get lb "totalShareholderEquity")
       then Some (margin_value td (row_get lb "totalShareholderEquity"))
       else dict_get (ratios st) "Debt_to_Equity")).
  { unfold calculate_ratios. rewrite Hov, Hinc, Hbs.
    rewrite ratios_run_try. unfold calculate_ratios_body.
    rewrite (se_bind_lift_ok _ _ _ _ H1), se_bind_set.
    rewrite (se_bind_lift_ok _ _ _ _ H2), se_bind_set.
    rewrite (se_bind_lift_ok _ _ _ _ H3), se_bind_set.
    rewrite (se_bind_lift_ok _ _ _ _ H4), se_bind_set.
    rewrite (se_bind_lift_ok _ _ _ _ Hli), (se_bind_lift_ok _ _ _ _ Hlb).
    cbv beta zeta.
    rewrite guarded_ratio_step, guarded_ratio_step.
    rewrite (se_bind_lift_ok _ _ _ _ Htd). cbv beta.
    rewrite guarded_ratio_last.
    destruct (truthy (row_get li "netIncome") && truthy (row_get li "totalRevenue")),
      (truthy (row_get li "netIncome") && truthy (row_get lb "totalShareholderEquity")),
      (truthy td && truthy (row_get lb "totalShareholderEquity"));
      rewrite ?dict_get_set; split; reflexivity. }
  destruct Hmain as [Hroe Hde].
  split; [exact Hroe|]. split; [exact Hde|].
  intros Hl Hs. rewrite Hde. unfold row_get_d in Htd. rewrite Hl, Hs in Htd.
  injection Htd as <-. reflexivity.
Qed.

Lemma ratios_roe_de_witness :
  dict_get (ratios (calculate_ratios st_ni0)) "Debt_to_Equity"
  = Some (RFloat (Fin ((20 + 5) / 50))).
Proof.
  apply (ratios_roe_de st_ni0 ov_sample [inc_row (Fin 100) (Fin 0)] [bs_row1]
           (inc_row (Fin 100) (Fin 0)) bs_row1
           (Fin (Qmake 285 10)) (Fin (Qmake 401 10)) (Fin (Qmake 72 10))
           (Fin (Qmake 44 10000)) (num (20 + 5)));
    reflexivity.
Defined.

Lemma dcf_body_some cf bs ov g w tg r :
  run_simple_dcf_body cf bs ov g w tg = Ok (Some r) ->
  exists lcf lb s n td nd,
    iloc cf (-1) = Ok lcf /\
    row_get lcf "operatingCashflow" <> PNone /\
    row_get lcf "capitalExpenditures" <> PNone /\
    iloc bs (-1) = Ok lb /\
    py_add (row_get_d lb "longTermDebt" zero) (row_get_d lb "shortTermDebt" zero) = Ok td /\
    py_sub td (row_get_d lb "cashAndCashEquivalentsAtCarryingValue" zero) = Ok nd /\
    py_sub (enterprise_value r) nd = Ok (equity_value r) /\
    ov_get ov "SharesOutstanding" = Some s /\ py_int s = Ok n /\ n <> 0%Z /\
    py_div (equity_value r) (num (inject_Z n)) = Ok (implied_share_price r).
Proof.
  unfold run_simple_dcf_body. intro H. res_inv H.
  all: try discriminate H.
  destruct (ov_get ov "SharesOutstanding") as [s|] eqn:Es; [|discriminate H].
  res_inv H; [discriminate H|]. subst r. simpl.
  exists a, a10, s, a14, a11, a12.
  repeat split; try assumption.
  - rewrite Heqp. discriminate.
  - rewrite Heqp0. discriminate.
  - apply Z.eqb_neq. assumption.
Qed.

(** run_simple_dcf, structure of a result: whenever it returns a result,
    the equity value is the enterprise value minus net debt, net debt being
    longTermDebt + shortTermDebt - cash of the latest balance sheet (an
    absent column counting as 0), and the implied share price is the
    equity value divided by int(SharesOutstanding), which is nonzero. *)
Theorem dcf_result_structure (st : analyzer) (g w tg : Q) (r : dcf_result)
  (H : run_simple_dcf st g w tg = Some r) :
  exists bs ov lb s n td nd,
    balance_sheet st = Some bs /\ overview_of st = Some ov /\
    iloc bs (-1) = Ok lb /\
    py_add (row_get_d lb "longTermDebt" zero) (row_get_d lb "shortTermDebt" zero) = Ok td /\
    py_sub td (row_get_d lb "cashAndCashEquivalentsAtCarryingValue" zero) = Ok nd /\
    py_sub (enterprise_value r) nd = Ok (equity_value r) /\
    ov_get ov "SharesOutstanding" = Some s /\ py_int s = Ok n /\ n <> 0%Z /\
    py_div (equity_value r) (num (inject_Z n)) = Ok (implied_share_price r).
Proof.
  unfold run_simple_dcf in H.
  destruct (cash_flow st) as [cf|], (balance_sheet st) as [bs|] eqn:Ebs,
    (overview_of st) as [ov|] eqn:Eov; try discriminate H.
  destruct (run_simple_dcf_body cf bs ov g w tg) as [[r'|]|e] eqn:E; try discriminate H.
  injection H as ->.
  destruct (dcf_body_some _ _ _ _ _ _ _ E)
    as [lcf [lb [s [n [td [nd [_ [_ [_ [Hlb [Htd [Hnd [Heq [Hs [Hn [Hn0 Hp]]]]]]]]]]]]]]]].
  exists bs, ov, lb, s, n, td, nd. repeat split; assumption.
Qed.

Lemma dcf_result_structure_witness :
  exists r, run_simple_dcf st_dcf (5 # 100) (10 # 100) (2 # 100) = Some r /\
  exists bs ov lb s n td nd,
    balance_sheet st_dcf = Some bs /\ overview_of st_dcf = Some ov /\
    iloc bs (-1) = Ok lb /\
    py_add (row_get_d lb "longTermDebt" zero) (row_get_d lb "shortTermDebt" zero) = Ok td /\
    py_sub td (row_get_d lb "cashAndCashEquivalentsAtCarryingValue" zero) = Ok nd /\
    py_sub (enterprise_value r) nd = Ok (equity_value r) /\
    ov_get ov "SharesOutstanding" = Some s /\ py_int s = Ok n /\ n <> 0%Z /\
    py_div (equity_value r) (num (inject_Z n)) = Ok (implied_share_price r).
Proof.
  eexists. split; [reflexivity|].
  apply (dcf_result_structure st_dcf (5 # 100) (10 # 100) (2 # 100)). reflexivity.
Defined.

(** run_simple_dcf with a discount rate equal to the terminal growth
    rate: the terminal value FCF_5 (1+tg) / (dr - tg) divides by zero,
    which with numpy float64 raises nothing and gives +inf for a positive
    numerator, so a result is still returned and its enterprise value is
    +inf. *)
Theorem dcf_equal_rates (st : analyzer) (cf bs : table) (ov : overview) (lcf lb : row)
  (op capex g w : Q) (s : string) (n : Z)
  (Hcf : cash_flow st = Some cf) (Hbs : balance_sheet st = Some bs)
  (Hov : overview_of st = Some ov)
  (Hlcf : iloc cf (-1) = Ok lcf) (Hlb : iloc bs (-1) = Ok lb)
  (Hop : row_get lcf "operatingCashflow" = num op)
  (Hcx : row_get lcf "capitalExpenditures" = num capex)
  (Hs : ov_get ov "SharesOutstanding" = Some s) (Hn : py_int s = Ok n) (Hn0 : n <> 0%Z)
  (Hw : (0 < 1 + w)%Q)
  (Hpos : (0 < (op - Qabs capex) * Qpower (1 + g) 5 * (1 + w))%Q) :
  exists r, run_simple_dcf st g w w = Some r /\ enterprise_value r = PNum PInf.
Proof.
  assert (Hw' : ~ (1 + w == 0)%Q) by (intro E; rewrite E in Hw; discriminate Hw).
  unfold run_simple_dcf. rewrite Hcf, Hbs, Hov. unfold run_simple_dcf_body.
  rewrite Hlcf. cbn [res_bind]. rewrite Hop, Hcx.
  cbn [num res_bind py_abs py_sub py_arith flt_abs flt_sub].
  fold_num. rewrite project_fcf_num. cbn [res_bind]. rewrite iloc_last5.
  cbn [res_bind py_mul py_arith num flt_mul]. fold_num.
  rewrite py_div_pos_zero by (exact Hpos || ring). cbn [res_bind].
  rewrite discount_from_5 by exact Hw'. cbn [res_bind].
  rewrite py_div_inf_pos by (apply Qpower_0_lt; exact Hw).
  cbn [res_bind py_sum fold_left py_add py_arith num flt_add].
  rewrite Hlb. cbn [res_bind].
  destruct (row_get_d_pnum lb "longTermDebt") as [x1 E1].
  destruct (row_get_d_pnum lb "shortTermDebt") as [x2 E2].
  destruct (row_get_d_pnum lb "cashAndCashEquivalentsAtCarryingValue") as [x3 E3].
  rewrite E1, E2. destruct (py_add_pnum x1 x2) as [z1 Ez1]. rewrite Ez1. cbn [res_bind].
  rewrite E3. destruct (py_sub_pnum z1 x3) as [z2 Ez2]. rewrite Ez2. cbn [res_bind].
  destruct (py_sub_pnum PInf z2) as [z3 Ez3]. rewrite Ez3.
  cbn [res_bind]. rewrite Hs. cbn [res_bind]. rewrite Hn. cbn [res_bind].
  rewrite (proj2 (Z.eqb_neq n 0) Hn0).
  destruct (py_div_pnum_num z3 (inject_Z n)) as [v Ev].
  { intro E. apply Hn0. apply inject_Z_injective. exact E. }
  rewrite Ev. cbn [res_bind].
  eexists. split; reflexivity.
Qed.

Lemma dcf_equal_rates_witness :
  exists r, run_simple_dcf st_dcf 0 (2 # 100) (2 # 100) = Some r /\
            enterprise_value r = PNum PInf.
Proof.
  apply (dcf_equal_rates st_dcf _ _ _ _ _ 120 (-20) 0 (2 # 100) _ _
           eq_refl eq_refl eq_refl eq_refl eq_refl eq_refl eq_refl eq_refl eq_refl);
    [discriminate | reflexivity | reflexivity].
Defined.

(** run_simple_dcf returns None when a statement or the overview is
    missing, when the cash-flow or balance-sheet table is empty, or when
    the latest cash-flow row lacks operatingCashflow or
    capitalExpenditures. *)
Theorem dcf_unavailable_inputs (st : analyzer) (g w tg : Q) :
  (cash_flow st = None \/ balance_sheet st = None \/ overview_of st = None \/
   cash_flow st = Some [] \/ balance_sheet st = Some [] \/
   exists cf lcf, cash_flow st = Some cf /\ iloc cf (-1) = Ok lcf /\
     (row_get lcf "operatingCashflow" = PNone \/
      row_get lcf "capitalExpenditures" = PNone)) ->
  run_simple_dcf st g w tg = None.
Proof.
  intros Hcase. unfold run_simple_dcf.
  destruct (cash_flow st) as [cf|] eqn:Ecf, (balance_sheet st) as [bs|] eqn:Ebs,
    (overview_of st) as [ov|] eqn:Eov; try reflexivity.
  destruct (run_simple_dcf_body cf bs ov g w tg) as [[r|]|e] eqn:E; try reflexivity.
  exfalso.
  destruct (dcf_body_some _ _ _ _ _ _ _ E)
    as [lcf [lb [s [n [td [nd [Hl [Hop [Hcx [Hlb _]]]]]]]]]].
  destruct Hcase as [H|[H|[H|[H|[H|[cf' [lcf' [H [Hl' [Hp|Hp]]]]]]]]]];
    try discriminate H.
  - injection H as ->. discriminate Hl.
  - injection H as ->. discriminate Hlb.
  - injection H as <-. rewrite Hl in Hl'. injection Hl' as <-. contradiction.
  - injection H as <-. rewrite Hl in Hl'. injection Hl' as <-. contradiction.
Qed.

Lemma dcf_unavailable_inputs_witness :
  run_simple_dcf st_inc_one (5 # 100) (10 # 100) (2 # 100) = None.
Proof. apply dcf_unavailable_inputs. left. reflexivity. Defined.

(** run_simple_dcf does not depend on the sign convention of
    capitalExpenditures: it uses abs(capex), so a latest cash-flow row
    reporting capex as c or as -c gives the same result. *)
Theorem dcf_capex_sign_irrelevant (st1 st2 : analyzer) (cf1 cf2 : table) (r1 r2 : row)
  (c g w tg : Q)
  (Hcf1 : cash_flow st1 = Some cf1) (Hcf2 : cash_flow st2 = Some cf2)
  (Hbs : balance_sheet st1 = balance_sheet st2) (Hov : overview_of st1 = overview_of st2)
  (Hl1 : iloc cf1 (-1) = Ok r1) (Hl2 : iloc cf2 (-1) = Ok r2)
  (Hop : row_get r1 "operatingCashflow" = row_get r2 "operatingCashflow")
  (Hc1 : row_get r1 "capitalExpenditures" = num c)
  (Hc2 : row_get r2 "capitalExpenditures" = num (- c)) :
  run_simple_dcf st1 g w tg = run_simple_dcf st2 g w tg.
Proof.
  unfold run_simple_dcf. rewrite Hcf1, Hcf2, Hbs, Hov.
  destruct (balance_sheet st2), (overview_of st2); try reflexivity.
  unfold run_simple_dcf_body. rewrite Hl1, Hl2. cbn [res_bind]. cbv zeta.
  rewrite Hop, Hc1, Hc2.
  destruct (row_get r2 "operatingCashflow"); [reflexivity|].
  cbn [py_abs num flt_abs]. rewrite Qabs_opp_eq. reflexivity.
Qed.

Lemma dcf_capex_sign_irrelevant_witness :
  run_simple_dcf st_dcf (5 # 100) (10 # 100) (2 # 100)
  = run_simple_dcf st_dcf_pos (5 # 100) (10 # 100) (2 # 100).
Proof.
  apply (dcf_capex_sign_irrelevant st_dcf st_dcf_pos cf_dcf [cf_dcf_pos_row]
           cf_dcf_row cf_dcf_pos_row (-20)); reflexivity.
Defined.

(** The script's growth-rate fallback, on an income statement of at least
    6 rows: when the revenue 5 years back (row n-6) is missing or is a
    number <= 0, or the latest revenue is missing, Revenue_CAGR_5Y is
    recorded as None and the DCF growth rate is the fallback 0.08. *)
Theorem main_growth_fallback (fpow : flt -> Q -> res flt) (ov : option overview)
  (inc : table) (bs cf : option table)
  (H6 : (6 <= length inc)%nat)
  (Hrev : row_get (nth (length inc - 6) inc []) "totalRevenue" = PNone \/
          row_get (nth (length inc - 1) inc []) "totalRevenue" = PNone \/
          (row_get (nth (length inc - 1) inc []) "totalRevenue" <> PNone /\
           exists q, row_get (nth (length inc - 6) inc []) "totalRevenue" = num q /\
                     (q <= 0)%Q)) :
  dict_get (ratios (fst (main_models fpow ov (Some inc) bs cf))) "Revenue_CAGR_5Y"
    = Some RNone /\
  main_growth_rate fpow ov (Some inc) bs cf = Fin (8 # 100).
Proof.
  assert (Hv : calculate_cagr fpow (row_get (nth (length inc - 6) inc []) "totalRevenue")
                 (row_get (nth (length inc - 1) inc []) "totalRevenue") 5 = Ok RNone).
  { apply cagr_none. destruct Hrev as [H|[H|H]]; auto. }
  pose proof (main_rev5 fpow ov inc bs cf RNone H6 Hv) as Hget.
  split; [exact Hget|]. unfold main_growth_rate. unfold table, row in *. rewrite Hget. reflexivity.
Qed.

Lemma main_growth_fallback_witness :
  main_growth_rate pow_example None (Some inc_six_zero) None None = Fin (8 # 100).
Proof.
  apply (main_growth_fallback pow_example None inc_six_zero None None).
  - simpl. lia.
  - right. right. split; [discriminate|]. exists 0%Q. split; [reflexivity|].
    vm_compute. discriminate.
Defined.

(** The script's growth rate, on an income statement of at least 6 rows:
    when the 5-year revenue CAGR (row n-6 to the last row) is a positive
    number q, the DCF growth rate is q. *)
Theorem main_growth_from_cagr (fpow : flt -> Q -> res flt) (ov : option overview)
  (inc : table) (bs cf : option table) (q : Q)
  (H6 : (6 <= length inc)%nat)
  (Hv : calculate_cagr fpow (row_get (nth (length inc - 6) inc []) "totalRevenue")
          (row_get (nth (length inc - 1) inc []) "totalRevenue") 5 = Ok (RFloat (Fin q)))
  (Hq : (0 < q)%Q) :
  main_growth_rate fpow ov (Some inc) bs cf = Fin q.
Proof.
  pose proof (main_rev5 fpow ov inc bs cf _ H6 Hv) as Hget.
  unfold main_growth_rate. unfold table, row in *. rewrite Hget.
  replace (Qle_bool q 0) with false; [reflexivity|].
  symmetry. apply not_true_iff_false. intro E. apply Qle_bool_iff in E.
  apply (Qlt_not_le 0 q Hq E).
Qed.

Lemma main_growth_from_cagr_witness :
  main_growth_rate pow_example None (Some inc_six_pos) None None = Fin (32 / 1 - 1).
Proof.
  apply (main_growth_from_cagr pow_example None inc_six_pos None None (32 / 1 - 1)).
  - simpl. lia.
  - reflexivity.
  - reflexivity.
Defined.

(** The script's growth rate, on an income statement of at least 6 rows:
    a NaN revenue (a "None" cell after pd.to_numeric) at row n-6, or a NaN
    latest revenue over a positive starting one, passes the `<= 0` test,
    so the DCF growth rate is NaN rather than the fallback; `**` maps NaN
    to NaN, as Python's does for the exponent 1/5. *)
Theorem main_growth_nan (fpow : flt -> Q -> res flt) (ov : option overview)
  (inc : table) (bs cf : option table)
  (Hnan : fpow NaN (1 / inject_Z 5)%Q = Ok NaN)
  (H6 : (6 <= length inc)%nat)
  (Hrev : (row_get (nth (length inc - 6) inc []) "totalRevenue" = PNum NaN /\
           row_get (nth (length inc - 1) inc []) "totalRevenue" <> PNone) \/
          (exists q, row_get (nth (length inc - 6) inc []) "totalRevenue" = num q /\
                     (0 < q)%Q /\
                     row_get (nth (length inc - 1) inc []) "totalRevenue" = PNum NaN)) :
  main_growth_rate fpow ov (Some inc) bs cf = NaN.
Proof.
  assert (Hv : calculate_cagr fpow (row_get (nth (length inc - 6) inc []) "totalRevenue")
                 (row_get (nth (length inc - 1) inc []) "totalRevenue") 5
               = Ok (RFloat NaN)).
  { unfold calculate_cagr.
    destruct Hrev as [[Hs He]|[q [Hs [Hq He]]]]; rewrite Hs.
    - destruct (row_get (nth (length inc - 1) inc []) "totalRevenue") as [|x];
        [contradiction|]; destruct x; simpl; rewrite Hnan; reflexivity.
    - rewrite He. unfold num. simpl.
      replace (Qle_bool q 0) with false.
      + simpl. rewrite Hnan. reflexivity.
      + symmetry. apply not_true_iff_false. intro E. apply Qle_bool_iff in E.
        apply (Qlt_not_le 0 q Hq E). }
  pose proof (main_rev5 fpow ov inc bs cf _ H6 Hv) as Hget.
  unfold main_growth_rate. unfold table, row in *. rewrite Hget. reflexivity.
Qed.

Lemma main_growth_nan_witness :
  main_growth_rate pow_example None (Some inc_six_nan) None None = NaN.
Proof.
  apply (main_growth_nan pow_example None inc_six_nan None None).
  - reflexivity.
  - simpl. lia.
  - left. split; [reflexivity | discriminate].
Defined.

(** The script's discount rate: with an overview whose Beta parses as a
    number beta, it is the CAPM cost of equity
    0.0411 + beta * (0.09 - 0.0411); without an overview, or with Beta
    absent, "N/A" or "None", it is the fallback 0.09. *)
Theorem main_wacc_capm (fpow : flt -> Q -> res flt) (inc bs cf : option table) :
  (forall ov b beta, ov_get ov "Beta" = Some b -> b <> "N/A" -> py_float b = Ok (Fin beta) ->
     main_wacc fpow (Some ov) inc bs cf
     = Fin (RISK_FREE_RATE + beta * (EXPECTED_MARKET_RETURN - RISK_FREE_RATE))) /\
  (forall ov, ov_get ov "Beta" = None \/ ov_get ov "Beta" = Some "N/A" \/
              ov_get ov "Beta" = Some "None" ->
     main_wacc fpow (Some ov) inc bs cf = Fin (9 # 100)) /\
  main_wacc fpow None inc bs cf = Fin (9 # 100).
Proof.
  unfold main_wacc. split; [|split].
  - intros ov b beta Hb Hna Hp. rewrite main_models_capm.
    unfold calculate_cost_of_equity_capm, init_analyzer. cbn [overview_of]. rewrite Hb.
    replace (String.eqb b "N/A") with false by (symmetry; apply String.eqb_neq; exact Hna).
    rewrite Hp. reflexivity.
  - intros ov Hb. rewrite main_models_capm.
    unfold calculate_cost_of_equity_capm, init_analyzer. cbn [overview_of].
    destruct Hb as [Hb|[Hb|Hb]]; rewrite Hb; reflexivity.
  - rewrite main_models_capm. reflexivity.
Qed.

(** The script stops at display_results, before the DCF, when the overview
    reports MarketCapitalization as "None": `int("None")` raises ValueError
    outside any `try`.  With MarketCapitalization absent or an integer
    literal, or without an overview, display_results returns normally. *)
Theorem main_display_market_cap (fpow : flt -> Q -> res flt) (inc bs cf : option table) :
  (forall ov, ov_get ov "MarketCapitalization" = Some "None" ->
     main_display fpow (Some ov) inc bs cf = Err ValueError) /\
  (forall ov, ov_get ov "MarketCapitalization" = None ->
     main_display fpow (Some ov) inc bs cf = Ok tt) /\
  (forall ov s z, ov_get ov "MarketCapitalization" = Some s -> py_int s = Ok z ->
     main_display fpow (Some ov) inc bs cf = Ok tt) /\
  main_display fpow None inc bs cf = Ok tt.
Proof.
  unfold main_display, display_results.
  split; [|split; [|split]].
  - intros [|p ov] H; rewrite main_models_overview; [discriminate H|].
    rewrite H. reflexivity.
  - intros [|p ov] H; rewrite main_models_overview; [reflexivity|].
    rewrite H. reflexivity.
  - intros [|p ov] s z H Hz; rewrite main_models_overview; [reflexivity|].
    rewrite H. simpl. rewrite Hz. reflexivity.
  - rewrite main_models_overview. reflexivity.
Qed.

Lemma main_display_market_cap_witness :
  main_display pow_example (Some ov_mcap_none) None None None = Err ValueError.
Proof.
  destruct (main_display_market_cap pow_example None None None) as [H _].
  apply H. reflexivity.
Defined.

Lemma main_wacc_capm_witness :
  main_wacc pow_example (Some ov_sample) None None None
  = Fin (RISK_FREE_RATE + Qmake 12 10 * (EXPECTED_MARKET_RETURN - RISK_FREE_RATE)) /\
  main_wacc pow_example (Some ov_mcap_none) None None None
  = Fin (RISK_FREE_RATE + Qmake 12 10 * (EXPECTED_MARKET_RETURN - RISK_FREE_RATE)).
Proof.
  destruct (main_wacc_capm pow_example None None None) as [Hb _].
  split; apply (Hb _ "1.2"); try reflexivity; discriminate.
Defined.
